(** * Smart QR Stream: scan gate, history store, exporter and insight service

    A shallow embedding of the React component [App] (src/App.tsx), of the
    other [App] component of the repository (the variant with the AI
    analysis panel, which imports the Gemini service) and of
    [analyzeScannedItems] (src/services/geminiService.ts).

    Conventions.
    - A JavaScript string is modelled by the [string] of its UTF-8 bytes.
      The only character the code inspects is the ASCII double quote, which
      never occurs inside a multi-byte UTF-8 sequence, so replacing it and
      comparing strings with [===] commute with the encoding.
    - [Date.now()] and [timestamp] are integers of milliseconds, modelled in [Z].
    - A React state cell and a [useRef] cell are fields of one state record;
      a handler maps the state it is called in to the state after its
      updates are applied, together with the effects it performed, in order.
      Handlers run one at a time, each in the closure of the latest render. *)

From Stdlib Require Import ZArith List String Ascii Bool Lia.
Import ListNotations.

#[local] Open Scope string_scope.
#[local] Open Scope Z_scope.

(** ** JavaScript string and array helpers *)

Module Js.

(** The double quote character, U+0022. *)
Definition dquote : ascii := "034"%char.

(** [s.replace] of the global double-quote pattern by two double quotes:
    every double quote is doubled. *)
Fixpoint replace_dquote (s : string) : string :=
  match s with
  | EmptyString => EmptyString
  | String c rest =>
      if Ascii.eqb c dquote
      then String dquote (String dquote (replace_dquote rest))
      else String c (replace_dquote rest)
  end.

(** [xs.join(sep)] on an array of strings. *)
Fixpoint join (sep : string) (xs : list string) : string :=
  match xs with
  | [] => EmptyString
  | [x] => x
  | x :: rest => x ++ sep ++ join sep rest
  end.

(** Truthiness of a [string | undefined] value: [undefined] and the empty
    string are falsy. *)
Definition truthy (v : option string) : bool :=
  match v with
  | None => false
  | Some EmptyString => false
  | Some (String _ _) => true
  end.

(** [a === b] where [a : string] and [b : string | null]. *)
Definition strict_eq_ref (a : string) (b : option string) : bool :=
  match b with
  | None => false
  | Some b' => String.eqb a b'
  end.

End Js.

(** ** types.ts *)

Module ScannedItem.

Record t : Type := mk {
  id : string;
  content : string;
  format : string;
  timestamp : Z;
  schoolName : string;
  grade : string;
  className : string;
  inputterName : string
}.

End ScannedItem.

(** ** Effects a handler performs on the browser, in program order *)

Inductive Effect : Type :=
| PlayScanBeep
| ClipboardWriteText (text : string)
| Alert (message : string)
| DownloadFile (filename blobType text : string).

(** A [button] with a [disabled] attribute dispatches no click while it is
    disabled. *)
Definition button_onClick {S : Type} (disabled : bool)
    (handler : S -> S * list Effect) (s : S) : S * list Effect :=
  if disabled then (s, []) else handler s.

(** ** Pieces shared by both variants of [App] *)

(** The metadata draft held by [useState] in [App]. *)
Module Metadata.

Record t : Type := mk {
  schoolName : string;
  grade : string;
  className : string;
  inputterName : string
}.

(** The object spread with a computed key, [{ ...metadata, [name]: value }],
    read through the four fields of the draft. *)
Definition set (m : t) (name value : string) : t :=
  mk (if String.eqb name "schoolName" then value else schoolName m)
     (if String.eqb name "grade" then value else grade m)
     (if String.eqb name "className" then value else className m)
     (if String.eqb name "inputterName" then value else inputterName m).

End Metadata.

(** The byte-order mark U+FEFF, as the three bytes of its UTF-8 encoding. *)
Definition BOM : string :=
  String "239" (String "187" (String "191" EmptyString)).

Definition newline : string := String "010" EmptyString.

(** The template that wraps [s.replace(..)] in a pair of double quotes,
    applied by the export handlers to the five text fields of a record. *)
Definition safe (s : string) : string :=
  String Js.dquote (Js.replace_dquote s) ++ String Js.dquote EmptyString.

(** [items.some(item => item.content === content)]. *)
Definition isDuplicate (content : string) (l : list ScannedItem.t) : bool :=
  existsb (fun item => String.eqb (ScannedItem.content item) content) l.

(** [prev.filter((item) => item.id !== id)]. *)
Definition removeById (id : string) (l : list ScannedItem.t)
    : list ScannedItem.t :=
  filter (fun item => negb (String.eqb (ScannedItem.id item) id)) l.

(** ** src/App.tsx *)

Module App.

Module Toast.
Inductive kind : Type := success | warning.
Record t : Type := mk {
  message : string;
  type : kind;
  id : Z
}.
End Toast.

Record AppState : Type := mkState {
  items : list ScannedItem.t;
  isScanningPaused : bool;
  showSettings : bool;
  toast : option Toast.t;
  metadata : Metadata.t;
  lastScanRef : option string;
  lastScanTimeRef : Z
}.

(** The values the hooks are initialised with. *)
Definition initial : AppState :=
  mkState [] false true None (Metadata.mk "" "" "" "") None 0.

Definition setItems (f : list ScannedItem.t -> list ScannedItem.t)
    (s : AppState) : AppState :=
  mkState (f (items s)) (isScanningPaused s) (showSettings s) (toast s)
          (metadata s) (lastScanRef s) (lastScanTimeRef s).

Definition setToast (v : option Toast.t) (s : AppState) : AppState :=
  mkState (items s) (isScanningPaused s) (showSettings s) v
          (metadata s) (lastScanRef s) (lastScanTimeRef s).

Definition setMetadata (m : Metadata.t) (s : AppState) : AppState :=
  mkState (items s) (isScanningPaused s) (showSettings s) (toast s)
          m (lastScanRef s) (lastScanTimeRef s).

Definition setLastScan (r : option string) (s : AppState) : AppState :=
  mkState (items s) (isScanningPaused s) (showSettings s) (toast s)
          (metadata s) r (lastScanTimeRef s).

Definition setLastScanTime (time : Z) (s : AppState) : AppState :=
  mkState (items s) (isScanningPaused s) (showSettings s) (toast s)
          (metadata s) (lastScanRef s) time.

Definition setIsScanningPaused (b : bool) (s : AppState) : AppState :=
  mkState (items s) b (showSettings s) (toast s)
          (metadata s) (lastScanRef s) (lastScanTimeRef s).

Definition setShowSettings (b : bool) (s : AppState) : AppState :=
  mkState (items s) (isScanningPaused s) b (toast s)
          (metadata s) (lastScanRef s) (lastScanTimeRef s).

(** The cooldown of [handleScan], in milliseconds. *)
Definition cooldown : Z := 1500.

Definition duplicateMessage : string := "既にスキャン済みです".
Definition successMessage : string := "スキャン成功！".

(** [handleMetadataChange]: [name] and [value] come from the edited input. *)
Definition handleMetadataChange (name value : string) (s : AppState)
    : AppState * list Effect :=
  let newMetadata := Metadata.set (metadata s) name value in
  let s := setMetadata newMetadata s in
  let s := setItems (map (fun item =>
             ScannedItem.mk (ScannedItem.id item) (ScannedItem.content item)
               (ScannedItem.format item) (ScannedItem.timestamp item)
               (Metadata.schoolName newMetadata) (Metadata.grade newMetadata)
               (Metadata.className newMetadata)
               (Metadata.inputterName newMetadata))) s in
  (s, []).

(** [showToast]; [toastNow] is the clock it reads for the toast id. *)
Definition showToast (toastNow : Z) (message : string) (type : Toast.kind)
    (s : AppState) : AppState :=
  setToast (Some (Toast.mk message type toastNow)) s.

(** The cooldown test at the head of [handleScan]. *)
Definition inCooldown (now : Z) (content : string) (s : AppState) : bool :=
  Js.strict_eq_ref content (lastScanRef s)
  && (now - lastScanTimeRef s <? cooldown).

(** [handleScan]. The clock read at entry is [now], the identifier drawn
    for the record is [newId], the clock read by [showToast] is [toastNow]. *)
Definition handleScan (now : Z) (newId : string) (toastNow : Z)
    (content format : string) (s : AppState) : AppState * list Effect :=
  if inCooldown now content s then (s, [])
  else
    let s := setLastScan (Some content) s in
    let s := setLastScanTime now s in
    if isDuplicate content (items s)
    then (showToast toastNow duplicateMessage Toast.warning s, [PlayScanBeep])
    else
      let newItem :=
        ScannedItem.mk newId content format now
          (Metadata.schoolName (metadata s)) (Metadata.grade (metadata s))
          (Metadata.className (metadata s))
          (Metadata.inputterName (metadata s)) in
      let s := setItems (fun prev => newItem :: prev) s in
      (showToast toastNow successMessage Toast.success s, [PlayScanBeep]).

(** [handleDelete]. *)
Definition handleDelete (id : string) (s : AppState) : AppState * list Effect :=
  (setItems (removeById id) s, []).

(** [handleClear]; [confirmed] is the answer of the confirmation dialog. *)
Definition handleClear (confirmed : bool) (s : AppState)
    : AppState * list Effect :=
  if confirmed
  then (setLastScan None (setItems (fun _ => []) s), [])
  else (s, []).

Section Exporter.

(** [new Date(ms).toLocaleString()] and [new Date(ms).toISOString()]
    depend on the locale and time zone of the browser. *)
Variable toLocaleString : Z -> string.
Variable toISOString : Z -> string.

(** [headers] is an array of one string; as an element of the joined array
    it is converted to that string. *)
Definition headers : string := "学校名,学年,クラス,入力者名,スキャン日時,内容,形式".

(** The callback of [items.map], the same in both export handlers. *)
Definition csvRow (item : ScannedItem.t) : string :=
  let date := toLocaleString (ScannedItem.timestamp item) in
  let safeContent := safe (ScannedItem.content item) in
  let safeSchool := safe (ScannedItem.schoolName item) in
  let safeGrade := safe (ScannedItem.grade item) in
  let safeClass := safe (ScannedItem.className item) in
  let safeInputter := safe (ScannedItem.inputterName item) in
  safeSchool ++ "," ++ safeGrade ++ "," ++ safeClass ++ ","
    ++ safeInputter ++ "," ++ date ++ "," ++ safeContent ++ ","
    ++ ScannedItem.format item.

Definition copiedMessage : string :=
  "全データをクリップボードにコピーしました（CSV形式）".

(** [handleCopyAll]. *)
Definition handleCopyAll (s : AppState) : AppState * list Effect :=
  if Nat.eqb (List.length (items s)) 0 then (s, [])
  else
    let rows := map csvRow (items s) in
    let text := Js.join newline (headers :: rows) in
    (s, [ClipboardWriteText text; Alert copiedMessage]).

(** [handleDownloadCSV]; [today] is the clock read for the file name. *)
Definition handleDownloadCSV (today : Z) (s : AppState)
    : AppState * list Effect :=
  if Nat.eqb (List.length (items s)) 0 then (s, [])
  else
    let rows := map csvRow (items s) in
    let csvContent := BOM ++ Js.join newline (headers :: rows) in
    (s, [DownloadFile
           ("スキャン結果_" ++ substring 0 10 (toISOString today) ++ ".csv")
           "text/csv;charset=utf-8;" csvContent]).

(** The two export buttons carry [disabled={items.length === 0}]. *)
Definition copyAllButton (s : AppState) : AppState * list Effect :=
  button_onClick (Nat.eqb (List.length (items s)) 0) handleCopyAll s.

Definition downloadCSVButton (today : Z) (s : AppState)
    : AppState * list Effect :=
  button_onClick (Nat.eqb (List.length (items s)) 0)
    (handleDownloadCSV today) s.

End Exporter.

(** The events that change the state of the component. A scan is delivered
    by the [Scanner] component, which decodes no frame while it is paused.
    The export handlers return the state they were called in. *)
Inductive Event : Type :=
| Scan (now : Z) (newId : string) (toastNow : Z) (content format : string)
| MetadataChange (name value : string)
| Delete (id : string)
| Clear (confirmed : bool)
| ToastTimeout
| TogglePause
| ToggleSettings.

Definition step (e : Event) (s : AppState) : AppState * list Effect :=
  match e with
  | Scan now newId toastNow content format =>
      if isScanningPaused s then (s, [])
      else handleScan now newId toastNow content format s
  | MetadataChange name value => handleMetadataChange name value s
  | Delete id => handleDelete id s
  | Clear confirmed => handleClear confirmed s
  | ToastTimeout => (setToast None s, [])
  | TogglePause => (setIsScanningPaused (negb (isScanningPaused s)) s, [])
  | ToggleSettings => (setShowSettings (negb (showSettings s)) s, [])
  end.

(** The state after a sequence of events, oldest first. *)
Fixpoint run (es : list Event) (s : AppState) : AppState :=
  match es with
  | [] => s
  | e :: rest => run rest (fst (step e s))
  end.

(** The states the component can be in. *)
Definition reachable (s : AppState) : Prop :=
  exists es, run es initial = s.

End App.

(** ** The variant of [App] with the AI analysis panel *)

Module AnalysisApp.

Record AppState : Type := mkState {
  items : list ScannedItem.t;
  isScanningPaused : bool;
  analysis : option string;
  isAnalyzing : bool;
  showSettings : bool;
  metadata : Metadata.t;
  lastScanRef : option string;
  lastScanTimeRef : Z
}.

Definition initial : AppState :=
  mkState [] false None false true (Metadata.mk "" "" "" "") None 0.

Definition setItems (f : list ScannedItem.t -> list ScannedItem.t)
    (s : AppState) : AppState :=
  mkState (f (items s)) (isScanningPaused s) (analysis s) (isAnalyzing s)
          (showSettings s) (metadata s) (lastScanRef s) (lastScanTimeRef s).

Definition setAnalysis (v : option string) (s : AppState) : AppState :=
  mkState (items s) (isScanningPaused s) v (isAnalyzing s)
          (showSettings s) (metadata s) (lastScanRef s) (lastScanTimeRef s).

Definition setIsAnalyzing (b : bool) (s : AppState) : AppState :=
  mkState (items s) (isScanningPaused s) (analysis s) b
          (showSettings s) (metadata s) (lastScanRef s) (lastScanTimeRef s).

Definition setMetadata (f : Metadata.t -> Metadata.t) (s : AppState)
    : AppState :=
  mkState (items s) (isScanningPaused s) (analysis s) (isAnalyzing s)
          (showSettings s) (f (metadata s)) (lastScanRef s)
          (lastScanTimeRef s).

Definition setLastScan (r : option string) (time : Z) (s : AppState)
    : AppState :=
  mkState (items s) (isScanningPaused s) (analysis s) (isAnalyzing s)
          (showSettings s) (metadata s) r time.

Definition cooldown : Z := 2000.

(** [handleScan]: no look-up in [items]. *)
Definition handleScan (now : Z) (newId : string) (content format : string)
    (s : AppState) : AppState * list Effect :=
  if Js.strict_eq_ref content (lastScanRef s)
     && (now - lastScanTimeRef s <? cooldown)
  then (s, [])
  else
    let s := setLastScan (Some content) now s in
    let newItem :=
      ScannedItem.mk newId content format now
        (Metadata.schoolName (metadata s)) (Metadata.grade (metadata s))
        (Metadata.className (metadata s))
        (Metadata.inputterName (metadata s)) in
    (setItems (fun prev => newItem :: prev) s, [PlayScanBeep]).

Definition handleDelete (id : string) (s : AppState) : AppState * list Effect :=
  (setItems (removeById id) s, []).

Definition handleClear (confirmed : bool) (s : AppState)
    : AppState * list Effect :=
  if confirmed
  then (setAnalysis None (setItems (fun _ => []) s), [])
  else (s, []).

(** [handleMetadataChange]: only the draft is updated. *)
Definition handleMetadataChange (name value : string) (s : AppState)
    : AppState * list Effect :=
  (setMetadata (fun prev => Metadata.set prev name value) s, []).

Section Exporter.

Variable toLocaleString : Z -> string.
Variable toISOString : Z -> string.

(** [handleCopyAll]: the payloads, one per line; no test on [items]. *)
Definition handleCopyAll (s : AppState) : AppState * list Effect :=
  let text := Js.join newline (map ScannedItem.content (items s)) in
  (s, [ClipboardWriteText text; Alert "All items copied to clipboard!"]).

Definition headers : string :=
  "Timestamp,Content,Format,School Name,Grade,Class,Inputter Name".

Definition csvRow (item : ScannedItem.t) : string :=
  let date := toLocaleString (ScannedItem.timestamp item) in
  let safeContent := safe (ScannedItem.content item) in
  let safeSchool := safe (ScannedItem.schoolName item) in
  let safeGrade := safe (ScannedItem.grade item) in
  let safeClass := safe (ScannedItem.className item) in
  let safeInputter := safe (ScannedItem.inputterName item) in
  date ++ "," ++ safeContent ++ "," ++ ScannedItem.format item ++ ","
    ++ safeSchool ++ "," ++ safeGrade ++ "," ++ safeClass ++ ","
    ++ safeInputter.

(** [handleDownloadCSV]: no test on [items]. *)
Definition handleDownloadCSV (today : Z) (s : AppState)
    : AppState * list Effect :=
  let rows := map csvRow (items s) in
  let csvContent := BOM ++ Js.join newline (headers :: rows) in
  (s, [DownloadFile
         ("scan_results_" ++ substring 0 10 (toISOString today) ++ ".csv")
         "text/csv;charset=utf-8;" csvContent]).

(** The two export buttons of the bottom bar carry
    [disabled={items.length === 0}]. *)
Definition copyAllButton (s : AppState) : AppState * list Effect :=
  button_onClick (Nat.eqb (List.length (items s)) 0) handleCopyAll s.

Definition downloadCSVButton (today : Z) (s : AppState)
    : AppState * list Effect :=
  button_onClick (Nat.eqb (List.length (items s)) 0)
    (handleDownloadCSV today) s.

End Exporter.

Inductive Event : Type :=
| Scan (now : Z) (newId : string) (content format : string)
| MetadataChange (name value : string)
| Delete (id : string)
| Clear (confirmed : bool).

Definition step (e : Event) (s : AppState) : AppState * list Effect :=
  match e with
  | Scan now newId content format =>
      if isScanningPaused s then (s, [])
      else handleScan now newId content format s
  | MetadataChange name value => handleMetadataChange name value s
  | Delete id => handleDelete id s
  | Clear confirmed => handleClear confirmed s
  end.

Fixpoint run (es : list Event) (s : AppState) : AppState :=
  match es with
  | [] => s
  | e :: rest => run rest (fst (step e s))
  end.

Definition reachable (s : AppState) : Prop :=
  exists es, run es initial = s.

End AnalysisApp.

(** ** src/services/geminiService.ts *)

Module GeminiService.

(** How a JavaScript computation ends: with a value, or with a thrown
    error (for an [async] function, a rejected promise). *)
Inductive Completion (A : Type) : Type :=
| Normal (value : A)
| Throw (error : string).
Arguments Normal {A} value.
Arguments Throw {A} error.

Record GenerateContentParameters : Type := mkParams {
  model : string;
  contents : string;
  systemInstruction : string
}.

(** What the function does to the outside world. *)
Inductive IOEvent : Type :=
| NetworkRequest (apiKey : string) (request : GenerateContentParameters)
| ConsoleError (label error : string).

(** A computation: its completion and the I/O it performed, in order. *)
Definition Comp (A : Type) : Type := Completion A * list IOEvent.

Definition ret {A : Type} (a : A) : Comp A := (Normal a, []).

Definition bind {A B : Type} (m : Comp A) (k : A -> Comp B) : Comp B :=
  match fst m with
  | Normal a => let r := k a in (fst r, (snd m ++ snd r)%list)
  | Throw e => (Throw e, snd m)
  end.

(** [try { body } catch (error) { handler }]. *)
Definition tryCatch {A : Type} (body : Comp A) (handler : string -> Comp A)
    : Comp A :=
  match fst body with
  | Normal a => body
  | Throw e => let r := handler e in (fst r, (snd body ++ snd r)%list)
  end.

Notation "x <- m ;; k" := (bind m (fun x => k))
  (at level 61, m at next level, right associativity).

Section Service.

(** [new Date(ms).toLocaleTimeString()]. *)
Variable toLocaleTimeString : Z -> string.

(** The answer of the generation endpoint to a request: the [text] of the
    response, which may be undefined, or a transport or service error. *)
Variable endpoint :
  string -> GenerateContentParameters -> Completion (option string).

(** [await ai.models.generateContent(request)], with [ai] built from
    [apiKey]. *)
Definition generateContent (apiKey : string)
    (request : GenerateContentParameters) : Comp (option string) :=
  (endpoint apiKey request, [NetworkRequest apiKey request]).

Definition consoleError (label error : string) : Comp unit :=
  (Normal tt, [ConsoleError label error]).

Definition notConfigured : string :=
  "API Key not configured. Unable to analyze.".
Definition noItems : string := "No items to analyze.".
Definition noText : string := "Could not generate analysis.".
Definition failed : string := "Failed to analyze items. Please try again.".

Definition promptLine (item : ScannedItem.t) : string :=
  "- " ++ ScannedItem.content item ++ " (scanned at "
    ++ toLocaleTimeString (ScannedItem.timestamp item) ++ ")".

Definition prompt (contentList : string) : string :=
  "I have scanned the following list of QR codes/Barcodes. Please provide a concise summary of what these items likely are. "
    ++ newline
    ++ "      Are they URLs, product codes, inventory IDs, or mixed? "
    ++ newline
    ++ "      If they are URLs, what kind of sites? " ++ newline
    ++ "      Format the response as a helpful insight for the user."
    ++ newline
    ++ "      " ++ newline
    ++ "      List:" ++ newline
    ++ "      " ++ contentList.

(** [analyzeScannedItems]; [API_KEY] is [process.env.API_KEY]. *)
Definition analyzeScannedItems (API_KEY : option string)
    (items : list ScannedItem.t) : Comp string :=
  if negb (Js.truthy API_KEY) then ret notConfigured
  else if Nat.eqb (List.length items) 0 then ret noItems
  else
    tryCatch
      (let apiKey := match API_KEY with Some k => k | None => "" end in
       let contentList := Js.join newline (map promptLine items) in
       text <- generateContent apiKey
                 (mkParams "gemini-2.5-flash" (prompt contentList)
                    "You are a helpful assistant analyzing a batch of scanned QR codes.") ;;
       ret (if Js.truthy text
            then match text with Some t => t | None => noText end
            else noText))
      (fun error =>
         _ <- consoleError "Gemini analysis error:" error ;;
         ret failed).

End Service.

End GeminiService.

(** ** [handleAnalyze] of the variant with the analysis panel *)

Module AnalysisPanel.

Section Panel.

Variable toLocaleTimeString : Z -> string.
Variable endpoint :
  string -> GeminiService.GenerateContentParameters ->
  GeminiService.Completion (option string).

(** [process.env.API_KEY]. *)
Variable API_KEY : option string.

(** The statements of [handleAnalyze] after the [await]: they run when the
    promise settles, on the state of that moment; a rejected promise would
    skip them. *)
Definition resume (settled : GeminiService.Completion string)
    (s : AnalysisApp.AppState) : AnalysisApp.AppState :=
  match settled with
  | GeminiService.Normal result =>
      AnalysisApp.setIsAnalyzing false
        (AnalysisApp.setAnalysis (Some result) s)
  | GeminiService.Throw _ => s
  end.

(** [handleAnalyze]. The service is called with the [items] of the render
    the handler was created in; [pending] are the events the component
    handles while the request is awaited. *)
Definition handleAnalyze (pending : list AnalysisApp.Event)
    (s : AnalysisApp.AppState)
    : AnalysisApp.AppState * list GeminiService.IOEvent :=
  if Nat.eqb (List.length (AnalysisApp.items s)) 0 then (s, [])
  else
    let s1 := AnalysisApp.setIsAnalyzing true s in
    let call :=
      GeminiService.analyzeScannedItems toLocaleTimeString endpoint API_KEY
        (AnalysisApp.items s) in
    let s2 := AnalysisApp.run pending s1 in
    (resume (fst call) s2, snd call).

End Panel.

End AnalysisPanel.

(** ** The [Scanner] components *)

Module Scanner.

(** What one tick of the frame loop finds: whether the two refs hold their
    elements, whether the video has enough data, whether the canvas gives a
    2d context, and what the decoder returns for the frame drawn ([None] for
    null, otherwise the [data] of the code). A video with enough data is
    taken to be at least two pixels wide and high, so that reading the image
    data of the frame or of its centred region does not fail. *)
Record Frame : Type := mkFrame {
  videoMounted : bool;
  canvasMounted : bool;
  haveEnoughData : bool;
  contextAvailable : bool;
  decoded : option string
}.

Inductive Effect : Type :=
| RequestAnimationFrame
| DrawImage
| Decode (inversionAttempts : string)
| StrokeOutline
| OnScan (content format : string).

(** The body run once the 2d context is obtained: draw, decode, and for a
    code whose data is not empty, outline it and notify the parent. *)
Definition decodeAndNotify (inversionAttempts : string) (frame : Frame)
    : list Effect :=
  [DrawImage; Decode inversionAttempts]
    ++ match decoded frame with
       | Some data =>
           if Js.truthy (Some data)
           then [StrokeOutline; OnScan data "QR_CODE"]
           else []
       | None => []
       end.

(** [scanFrame] of the component that decodes the centred square region and
    notifies through [onScanRef]. *)
Definition scanFrame (isPaused : bool) (frame : Frame) : list Effect :=
  if negb (videoMounted frame) || negb (canvasMounted frame) then []
  else if isPaused then [RequestAnimationFrame]
  else
    (if haveEnoughData frame
     then if contextAvailable frame
          then decodeAndNotify "attemptBoth" frame
          else []
     else [])
      ++ [RequestAnimationFrame].

(** [scanFrame] of the component that decodes the whole frame. *)
Definition scanFrameFull (isPaused : bool) (frame : Frame) : list Effect :=
  if isPaused then [RequestAnimationFrame]
  else
    (if videoMounted frame && canvasMounted frame && haveEnoughData frame
     then if contextAvailable frame
          then decodeAndNotify "dontInvert" frame
          else []
     else [])
      ++ [RequestAnimationFrame].

(** The calls of [onScan] among the effects of a tick. *)
Fixpoint onScanCalls (effects : list Effect) : list (string * string) :=
  match effects with
  | [] => []
  | OnScan content format :: rest => (content, format) :: onScanCalls rest
  | _ :: rest => onScanCalls rest
  end.

Definition isRequestAnimationFrame (e : Effect) : bool :=
  match e with RequestAnimationFrame => true | _ => false end.

End Scanner.

(** ** The [HistoryList] component *)

Module HistoryList.

(** Truthiness of a string. *)
Definition nonEmpty (s : string) : bool := Js.truthy (Some s).

(** The text of the badge that shows grade and class. *)
Definition gradeClassLabel (item : ScannedItem.t) : string :=
  (if nonEmpty (ScannedItem.grade item)
   then ScannedItem.grade item ++ "年" else "")
    ++ " " ++ ScannedItem.className item.

(** The texts of the metadata badges rendered under a record. *)
Definition metadataBadges (item : ScannedItem.t) : list string :=
  if nonEmpty (ScannedItem.schoolName item) || nonEmpty (ScannedItem.grade item)
     || nonEmpty (ScannedItem.className item)
     || nonEmpty (ScannedItem.inputterName item)
  then
    (if nonEmpty (ScannedItem.schoolName item)
     then [ScannedItem.schoolName item] else [])
      ++ (if nonEmpty (ScannedItem.grade item)
             || nonEmpty (ScannedItem.className item)
          then [gradeClassLabel item] else [])
      ++ (if nonEmpty (ScannedItem.inputterName item)
          then [ScannedItem.inputterName item] else [])
  else [].

(** The ids the rendered delete buttons pass to [onDelete]: one button per
    record; nothing but a placeholder is rendered for an empty list. *)
Definition deleteButtons (items : list ScannedItem.t) : list string :=
  if Nat.eqb (List.length items) 0 then [] else map ScannedItem.id items.

(** [copyToClipboard], called by the copy button of a record. *)
Definition copyToClipboard (text : string) : list Effect :=
  [ClipboardWriteText text].

End HistoryList.

(** * Specification vocabulary *)

(** The payloads of the store are pairwise distinct. *)
Definition uniquePayloads (l : list ScannedItem.t) : Prop :=
  NoDup (map ScannedItem.content l).

(** The record [new] is [old] with its four metadata fields set to the draft
    [m] and its id, payload, format and timestamp kept. *)
Definition restamped (m : Metadata.t) (old new : ScannedItem.t) : Prop :=
  ScannedItem.id new = ScannedItem.id old /\
  ScannedItem.content new = ScannedItem.content old /\
  ScannedItem.format new = ScannedItem.format old /\
  ScannedItem.timestamp new = ScannedItem.timestamp old /\
  ScannedItem.schoolName new = Metadata.schoolName m /\
  ScannedItem.grade new = Metadata.grade m /\
  ScannedItem.className new = Metadata.className m /\
  ScannedItem.inputterName new = Metadata.inputterName m.

(** The events of [App] other than a scan. *)
Definition nonScan (e : App.Event) : bool :=
  match e with
  | App.Scan _ _ _ _ _ => false
  | _ => true
  end.

(** A string of one double quote. *)
Definition quote : string := String Js.dquote EmptyString.

(** The last byte of a string is a double quote. *)
Fixpoint endsWithDquote (s : string) : bool :=
  match s with
  | EmptyString => false
  | String c EmptyString => Ascii.eqb c Js.dquote
  | String _ rest => endsWithDquote rest
  end.

(** Reading a quoted CSV field after its opening quote: two double quotes
    stand for one, a single double quote must close the field. *)
Fixpoint unquoteBody (s : string) : option string :=
  match s with
  | EmptyString => None
  | String c rest =>
      if Ascii.eqb c Js.dquote then
        match rest with
        | EmptyString => Some EmptyString
        | String c2 rest2 =>
            if Ascii.eqb c2 Js.dquote
            then option_map (String Js.dquote) (unquoteBody rest2)
            else None
        end
      else option_map (String c) (unquoteBody rest)
  end.

(** The text held by a double-quote-enclosed field whose inner double quotes
    are doubled; [None] when the field is not of that form. *)
Definition unquote (field : string) : option string :=
  match field with
  | EmptyString => None
  | String c rest => if Ascii.eqb c Js.dquote then unquoteBody rest else None
  end.

(** A field that is enclosed in double quotes, inner double quotes doubled. *)
Definition quotedField (field : string) : Prop := unquote field <> None.

(** A row all of whose comma-separated fields are quoted fields. *)
Definition allFieldsQuoted (row : string) : Prop :=
  exists fields, row = Js.join "," fields /\ Forall quotedField fields.

(** The record carries the four fields of the draft [m]. *)
Definition stampedWith (m : Metadata.t) (item : ScannedItem.t) : Prop :=
  ScannedItem.schoolName item = Metadata.schoolName m /\
  ScannedItem.grade item = Metadata.grade m /\
  ScannedItem.className item = Metadata.className m /\
  ScannedItem.inputterName item = Metadata.inputterName m.

(** No timestamp of the list is later than one before it. *)
Fixpoint newestFirst (times : list Z) : Prop :=
  match times with
  | [] => True
  | t :: rest => Forall (fun u => u <= t) rest /\ newestFirst rest
  end.

(** What a monotone clock keeps: the store is newest first and holds no
    timestamp later than the last clock value [t]. *)
Definition orderedUpTo (t : Z) (l : list ScannedItem.t) : Prop :=
  Forall (fun u => u <= t) (map ScannedItem.timestamp l) /\
  newestFirst (map ScannedItem.timestamp l).

(** The clock read by the scans of [es] never runs backwards, starting
    from [t]. *)
Fixpoint clockMonotone (t : Z) (es : list App.Event) : Prop :=
  match es with
  | [] => True
  | App.Scan now _ _ _ _ :: rest => t <= now /\ clockMonotone now rest
  | _ :: rest => clockMonotone t rest
  end.

(** The identifiers drawn for the scans of [es]. *)
Fixpoint scanIds (es : list App.Event) : list string :=
  match es with
  | [] => []
  | App.Scan _ newId _ _ _ :: rest => newId :: scanIds rest
  | _ :: rest => scanIds rest
  end.

(** The calls of [onScan] a tick makes once it decodes: one for a code whose
    data is not empty. *)
Definition notified (frame : Scanner.Frame) : list (string * string) :=
  match Scanner.decoded frame with
  | Some (String c rest) => [(String c rest, "QR_CODE")]
  | _ => []
  end.

(** A scan event is one that a tick of a [Scanner] can deliver: some frame
    makes one of the two [scanFrame] functions call [onScan] with its payload
    and format. *)
Definition deliveredByScanner (e : App.Event) : Prop :=
  match e with
  | App.Scan _ _ _ content format =>
      exists isPaused frame,
        In (content, format)
           (Scanner.onScanCalls (Scanner.scanFrame isPaused frame)) \/
        In (content, format)
           (Scanner.onScanCalls (Scanner.scanFrameFull isPaused frame))
  | _ => True
  end.

(** What a stored record holds when scans come from a [Scanner]: a payload
    that is not empty and the format QR_CODE. *)
Definition scannedRecord (item : ScannedItem.t) : Prop :=
  ScannedItem.content item <> "" /\ ScannedItem.format item = "QR_CODE".

(** The number of line feeds of a string. *)
Fixpoint countLF (s : string) : nat :=
  match s with
  | EmptyString => 0%nat
  | String c rest =>
      ((if Ascii.eqb c "010" then 1 else 0) + countLF rest)%nat
  end.

(** The number of double quotes of a string. *)
Fixpoint countDquote (s : string) : nat :=
  match s with
  | EmptyString => 0%nat
  | String c rest =>
      ((if Ascii.eqb c Js.dquote then 1 else 0) + countDquote rest)%nat
  end.

(** The request [analyzeScannedItems] builds for a list of records. *)
Definition requestFor (toLocaleTimeString : Z -> string)
    (items : list ScannedItem.t) : GeminiService.GenerateContentParameters :=
  GeminiService.mkParams "gemini-2.5-flash"
    (GeminiService.prompt
       (Js.join newline
          (map (GeminiService.promptLine toLocaleTimeString) items)))
    "You are a helpful assistant analyzing a batch of scanned QR codes.".

(** * Sample data *)

Definition recordA : ScannedItem.t :=
  ScannedItem.mk "id-a" "https://example.org/a" "QR_CODE" 1000
    "North" "1" "A" "Hanako".

Definition recordB : ScannedItem.t :=
  ScannedItem.mk "id-b" "ticket-42" "QR_CODE" 5000 "North" "1" "A" "Hanako".

(** A record whose payload holds two double quotes. *)
Definition recordQ : ScannedItem.t :=
  ScannedItem.mk "id-q" ("He said " ++ quote ++ "hi" ++ quote) "QR_CODE" 8000
    "North" "1" "A" "Hanako".

(** The state of [App] after [recordA] then [recordB] were scanned. *)
Definition twoScans : App.AppState :=
  App.mkState [recordB; recordA] false true None
    (Metadata.mk "North" "1" "A" "Hanako") (Some "ticket-42") 5000.

(** A run that scans a payload, another one, the first again (a duplicate),
    deletes the first record and scans its payload once more. *)
Definition rescanRun : list App.Event :=
  [App.Scan 1000 "id-1" 1000 "ticket-42" "QR_CODE";
   App.Scan 2000 "id-2" 2000 "ticket-43" "QR_CODE";
   App.Scan 9000 "id-3" 9000 "ticket-42" "QR_CODE";
   App.Delete "id-1";
   App.Scan 11000 "id-4" 11000 "ticket-42" "QR_CODE"].

(** A run of the analysis variant: one payload, scanned again two seconds
    later. *)
Definition analysisRescan : list AnalysisApp.Event :=
  [AnalysisApp.Scan 1000 "id-1" "ticket-42" "QR_CODE";
   AnalysisApp.Scan 3000 "id-2" "ticket-42" "QR_CODE"].

(** Formatters standing for a browser in the ja-JP locale. *)
Definition sampleDate (ms : Z) : string := "2026/11/2 19:21:00".

Definition sampleTime (ms : Z) : string := "19:21:00".

Definition sampleISO (ms : Z) : string := "2026-11-02T10:21:00.000Z".

(** An endpoint that is down, and one that answers. *)
Definition endpointDown (apiKey : string)
    (request : GeminiService.GenerateContentParameters)
    : GeminiService.Completion (option string) :=
  GeminiService.Throw "fetch failed".

Definition endpointUp (apiKey : string)
    (request : GeminiService.GenerateContentParameters)
    : GeminiService.Completion (option string) :=
  GeminiService.Normal (Some "Two URLs and one ticket number.").

(** * Properties *)

(** ** The scan gate of [App.handleScan] *)

Section ScanGate.

Variables (now toastNow : Z) (newId content format : string).
Variable s : App.AppState.

Lemma strict_eq_ref_true (a : string) (r : option string) :
  Js.strict_eq_ref a r = true <-> r = Some a.
Proof.
  destruct r as [b|]; simpl.
  - rewrite String.eqb_eq. split; congruence.
  - split; discriminate.
Qed.

(** The gate is closed exactly when the reference holds the scanned payload
    and less than the cooldown has elapsed since the reference time. *)
Lemma inCooldown_true :
  App.inCooldown now content s = true <->
  App.lastScanRef s = Some content /\
  now - App.lastScanTimeRef s < App.cooldown.
Proof.
  unfold App.inCooldown.
  rewrite andb_true_iff, strict_eq_ref_true, Z.ltb_lt. reflexivity.
Qed.

Lemma inCooldown_false :
  App.inCooldown now content s = false <->
  App.lastScanRef s <> Some content \/
  App.cooldown <= now - App.lastScanTimeRef s.
Proof.
  unfold App.inCooldown.
  rewrite andb_false_iff, Z.ltb_ge, <- strict_eq_ref_true.
  destruct (Js.strict_eq_ref content (App.lastScanRef s)); intuition congruence.
Qed.

Lemma handleScan_suppressed :
  App.inCooldown now content s = true ->
  App.handleScan now newId toastNow content format s = (s, []).
Proof. unfold App.handleScan. intros ->. reflexivity. Qed.

Lemma handleScan_duplicate :
  App.inCooldown now content s = false ->
  isDuplicate content (App.items s) = true ->
  App.handleScan now newId toastNow content format s =
  (App.showToast toastNow App.duplicateMessage App.Toast.warning
     (App.setLastScanTime now (App.setLastScan (Some content) s)),
   [PlayScanBeep]).
Proof. unfold App.handleScan. intros -> H. simpl. rewrite H. reflexivity. Qed.

Lemma handleScan_accepted :
  App.inCooldown now content s = false ->
  isDuplicate content (App.items s) = false ->
  App.handleScan now newId toastNow content format s =
  (App.showToast toastNow App.successMessage App.Toast.success
     (App.setItems
        (cons (ScannedItem.mk newId content format now
                 (Metadata.schoolName (App.metadata s))
                 (Metadata.grade (App.metadata s))
                 (Metadata.className (App.metadata s))
                 (Metadata.inputterName (App.metadata s))))
        (App.setLastScanTime now (App.setLastScan (Some content) s))),
   [PlayScanBeep]).
Proof. unfold App.handleScan. intros -> H. simpl. rewrite H. reflexivity. Qed.

End ScanGate.

Lemma isDuplicate_true (content : string) (l : list ScannedItem.t) :
  isDuplicate content l = true <-> In content (map ScannedItem.content l).
Proof.
  unfold isDuplicate. rewrite existsb_exists, in_map_iff.
  split; intros [x [H1 H2]]; exists x.
  - apply String.eqb_eq in H2. auto.
  - rewrite String.eqb_eq. auto.
Qed.

Lemma isDuplicate_false (content : string) (l : list ScannedItem.t) :
  isDuplicate content l = false <-> ~ In content (map ScannedItem.content l).
Proof.
  rewrite <- isDuplicate_true. destruct (isDuplicate content l); intuition congruence.
Qed.

(** The three ways through [App.handleScan]: stopped by the cooldown test,
    rejected as a duplicate, stored. *)
Ltac scan_cases now content s :=
  let Hgate := fresh "Hgate" in
  let Hdup := fresh "Hdup" in
  destruct (App.inCooldown now content s) eqn:Hgate;
  [ rewrite handleScan_suppressed by assumption
  | destruct (isDuplicate content (App.items s)) eqn:Hdup;
    [ rewrite handleScan_duplicate by assumption
    | rewrite handleScan_accepted by assumption ] ].

(** C2. A scan of the payload held by the cooldown reference, less than the
    cooldown (1500 ms) after the reference time, returns at once: the state
    (store, toast, reference) is the one it was called in and no effect is
    performed, so there is no new record, no duplicate toast and no beep.
    This holds for every store, whether or not it holds the payload: the
    look-up in the store has no part in the outcome. *)
Theorem cooldown_scan_discarded :
  forall (s : App.AppState) (P format newId : string) (now toastNow : Z),
    App.lastScanRef s = Some P ->
    now - App.lastScanTimeRef s < 1500 ->
    App.handleScan now newId toastNow P format s = (s, []).
Proof.
  intros s P format newId now toastNow Href Htime.
  apply handleScan_suppressed. apply inCooldown_true. split; assumption.
Qed.

Lemma cooldown_scan_discarded_witness :
  App.lastScanRef twoScans = Some "ticket-42" /\
  5400 - App.lastScanTimeRef twoScans < 1500 /\
  App.handleScan 5400 "id-c" 5401 "ticket-42" "QR_CODE" twoScans
  = (twoScans, []).
Proof.
  split; [reflexivity | split; [reflexivity |]].
  apply (cooldown_scan_discarded twoScans "ticket-42" "QR_CODE" "id-c" 5400 5401);
    reflexivity.
Defined.

(** Two scans of one payload in succession: when the first passes the gate
    at [t1] and the second comes at [t2] with [t2 - t1] below the cooldown,
    the second changes nothing. *)
Lemma second_scan_within_cooldown :
  forall (s : App.AppState) (P f1 f2 id1 id2 : string) (t1 t2 tt1 tt2 : Z),
    App.inCooldown t1 P s = false ->
    t2 - t1 < App.cooldown ->
    let s1 := fst (App.handleScan t1 id1 tt1 P f1 s) in
    App.handleScan t2 id2 tt2 P f2 s1 = (s1, []).
Proof.
  intros s P f1 f2 id1 id2 t1 t2 tt1 tt2 Hgate Ht s1.
  apply handleScan_suppressed, inCooldown_true. subst s1.
  scan_cases t1 P s; [discriminate | simpl; auto ..].
Qed.

(** The window runs from the last scan that passed the cooldown test; a
    discarded scan does not restart it. Here the scan at 2000 is discarded
    and the scan at 2600, 1600 ms after the one at 1000, passes the test and
    is reported as a duplicate. *)
Example cooldown_window_not_restarted :
  let s1 := fst (App.handleScan 1000 "id-1" 1000 "ticket-42" "QR_CODE" App.initial) in
  let r2 := App.handleScan 2000 "id-2" 2000 "ticket-42" "QR_CODE" s1 in
  let r3 := App.handleScan 2600 "id-3" 2600 "ticket-42" "QR_CODE" (fst r2) in
  r2 = (s1, []) /\
  snd r3 = [PlayScanBeep] /\
  App.toast (fst r3)
    = Some (App.Toast.mk App.duplicateMessage App.Toast.warning 2600) /\
  App.items (fst r3) = App.items s1.
Proof. repeat split. Qed.

(** The analysis variant applies the same test with a cooldown of 2000 ms. *)
Lemma analysis_variant_cooldown :
  forall (s : AnalysisApp.AppState) (P format newId : string) (now : Z),
    AnalysisApp.lastScanRef s = Some P ->
    now - AnalysisApp.lastScanTimeRef s < 2000 ->
    AnalysisApp.handleScan now newId P format s = (s, []).
Proof.
  intros s P format newId now Href Htime. unfold AnalysisApp.handleScan.
  rewrite Href. simpl. rewrite String.eqb_refl.
  apply Z.ltb_lt in Htime. unfold AnalysisApp.cooldown. rewrite Htime.
  reflexivity.
Qed.

(** C3. A scan of a payload that is in the store, made once the gate is open
    for it (the reference holds another payload, or the cooldown has elapsed
    since the reference time), sets the warning toast with the duplicate
    message and leaves the store as it was: same records, same order, same
    length. *)
Theorem duplicate_scan_rejected :
  forall (s : App.AppState) (P format newId : string) (now toastNow : Z),
    In P (map ScannedItem.content (App.items s)) ->
    App.lastScanRef s <> Some P \/ App.cooldown <= now - App.lastScanTimeRef s ->
    let r := App.handleScan now newId toastNow P format s in
    App.toast (fst r)
      = Some (App.Toast.mk App.duplicateMessage App.Toast.warning toastNow) /\
    App.items (fst r) = App.items s /\
    List.length (App.items (fst r)) = List.length (App.items s) /\
    App.metadata (fst r) = App.metadata s.
Proof.
  intros s P format newId now toastNow Hin Hgate r. subst r.
  rewrite handleScan_duplicate.
  - simpl. auto.
  - apply inCooldown_false. exact Hgate.
  - apply isDuplicate_true. exact Hin.
Qed.

Lemma duplicate_scan_rejected_witness :
  let r := App.handleScan 9000 "id-c" 9001 "ticket-42" "QR_CODE" twoScans in
  App.toast (fst r)
    = Some (App.Toast.mk App.duplicateMessage App.Toast.warning 9001) /\
  App.items (fst r) = [recordB; recordA] /\
  List.length (App.items (fst r)) = 2%nat /\
  App.metadata (fst r) = App.metadata twoScans.
Proof.
  apply (duplicate_scan_rejected twoScans "ticket-42" "QR_CODE" "id-c" 9000 9001).
  - simpl. left. reflexivity.
  - right. unfold App.cooldown. simpl. lia.
Defined.

(** C10. The beep is played exactly by the scans that pass the cooldown
    test. Such a scan also moves the reference to its payload and time,
    whether it is then rejected as a duplicate (the store keeps its length)
    or stored (the store grows by one); a scan stopped by the cooldown test
    performs no effect and changes nothing. *)
Theorem beep_and_reference_follow_gate :
  forall (s : App.AppState) (content format newId : string) (now toastNow : Z),
    let r := App.handleScan now newId toastNow content format s in
    if App.inCooldown now content s
    then snd r = [] /\ fst r = s
    else snd r = [PlayScanBeep] /\
         App.lastScanRef (fst r) = Some content /\
         App.lastScanTimeRef (fst r) = now /\
         List.length (App.items (fst r))
           = if isDuplicate content (App.items s)
             then List.length (App.items s)
             else S (List.length (App.items s)).
Proof.
  intros s content format newId now toastNow r. subst r.
  scan_cases now content s; simpl; auto.
Qed.

(** Events other than scans leave an empty store empty and a null cooldown
    reference null. *)
Lemma nonScan_run_keeps_cleared (es : list App.Event) :
  forall s,
    App.items s = [] ->
    App.lastScanRef s = None ->
    App.items (App.run (filter nonScan es) s) = [] /\
    App.lastScanRef (App.run (filter nonScan es) s) = None.
Proof.
  induction es as [|e es IH]; intros s Hitems Href; [auto|].
  destruct e as [now newId toastNow content format | name value
                | id | confirmed | | | ]; simpl;
    try (apply IH; assumption).
  - apply IH; simpl; [rewrite Hitems; reflexivity | exact Href].
  - apply IH; simpl; [rewrite Hitems; reflexivity | exact Href].
  - destruct confirmed; simpl; apply IH; auto.
Qed.

(** C9. A confirmed clear empties the store and sets the cooldown reference
    to null, and both stay so until the next scan, whatever other events
    (edits of the draft, deletions, further clears, toast time-outs, toggles)
    come in between. That next scan, of any payload and at any time, passes
    the cooldown test, is stored as the only record, stamped with the draft
    of the moment, and is announced by the success toast and the beep. *)
Theorem scan_after_clear_accepted :
  forall (s : App.AppState) (es : list App.Event)
         (P format newId : string) (now toastNow : Z),
    let cleared := fst (App.handleClear true s) in
    let later := App.run (filter nonScan es) cleared in
    let r := App.handleScan now newId toastNow P format later in
    App.items cleared = [] /\
    App.lastScanRef cleared = None /\
    App.metadata cleared = App.metadata s /\
    App.items later = [] /\
    App.lastScanRef later = None /\
    App.inCooldown now P later = false /\
    App.items (fst r)
      = [ScannedItem.mk newId P format now
           (Metadata.schoolName (App.metadata later))
           (Metadata.grade (App.metadata later))
           (Metadata.className (App.metadata later))
           (Metadata.inputterName (App.metadata later))] /\
    App.toast (fst r)
      = Some (App.Toast.mk App.successMessage App.Toast.success toastNow) /\
    snd r = [PlayScanBeep].
Proof.
  intros s es P format newId now toastNow cleared later r.
  destruct (nonScan_run_keeps_cleared es cleared eq_refl eq_refl)
    as [Hitems Href].
  fold later in Hitems, Href.
  assert (Hgate : App.inCooldown now P later = false)
    by (unfold App.inCooldown; rewrite Href; reflexivity).
  assert (Hdup : isDuplicate P (App.items later) = false)
    by (rewrite Hitems; reflexivity).
  subst r. rewrite handleScan_accepted by assumption.
  simpl. rewrite Hitems. repeat split; auto.
Qed.

(** The payload scanned just before the clear is no exception: scanned again
    right after it, in the same millisecond, it is stored. *)
Example rescan_right_after_clear :
  let s1 := fst (App.handleScan 7000 "id-1" 7000 "ticket-42" "QR_CODE" App.initial) in
  let s2 := fst (App.handleClear true s1) in
  let s3 := fst (App.handleScan 7000 "id-2" 7000 "ticket-42" "QR_CODE" s2) in
  map ScannedItem.id (App.items s3) = ["id-2"].
Proof. reflexivity. Qed.

(** ** The history store *)

Lemma Forall2_map_same {A B : Type} (R : A -> B -> Prop) (f : A -> B)
    (l : list A) :
  (forall x, R x (f x)) -> Forall2 R l (map f l).
Proof. intro H. induction l; simpl; constructor; auto. Qed.

(** C6. Editing one of the four inputs replaces that field of the draft,
    keeps the other three, and rewrites the four metadata fields of every
    record of the store to the new draft; the records keep their id,
    payload, format and timestamp, their number and their order. *)
Theorem metadata_overwrite_frame :
  forall (s : App.AppState) (name value : string),
    let s' := fst (App.handleMetadataChange name value s) in
    let m := App.metadata s' in
    m = Metadata.set (App.metadata s) name value /\
    Metadata.set (App.metadata s) "schoolName" value
      = Metadata.mk value (Metadata.grade (App.metadata s))
          (Metadata.className (App.metadata s))
          (Metadata.inputterName (App.metadata s)) /\
    Metadata.set (App.metadata s) "grade" value
      = Metadata.mk (Metadata.schoolName (App.metadata s)) value
          (Metadata.className (App.metadata s))
          (Metadata.inputterName (App.metadata s)) /\
    Metadata.set (App.metadata s) "className" value
      = Metadata.mk (Metadata.schoolName (App.metadata s))
          (Metadata.grade (App.metadata s)) value
          (Metadata.inputterName (App.metadata s)) /\
    Metadata.set (App.metadata s) "inputterName" value
      = Metadata.mk (Metadata.schoolName (App.metadata s))
          (Metadata.grade (App.metadata s))
          (Metadata.className (App.metadata s)) value /\
    Forall2 (restamped m) (App.items s) (App.items s') /\
    List.length (App.items s') = List.length (App.items s) /\
    map ScannedItem.content (App.items s')
      = map ScannedItem.content (App.items s) /\
    map ScannedItem.id (App.items s') = map ScannedItem.id (App.items s) /\
    App.lastScanRef s' = App.lastScanRef s /\
    snd (App.handleMetadataChange name value s) = [].
Proof.
  intros s name value s' m. subst m s'. simpl.
  repeat split.
  - apply Forall2_map_same. intro x. unfold restamped. simpl. repeat split.
  - apply length_map.
  - rewrite map_map. reflexivity.
  - rewrite map_map. reflexivity.
Qed.

Example metadata_overwrite_twoScans :
  App.items (fst (App.handleMetadataChange "grade" "2" twoScans))
  = [ScannedItem.mk "id-b" "ticket-42" "QR_CODE" 5000 "North" "2" "A" "Hanako";
     ScannedItem.mk "id-a" "https://example.org/a" "QR_CODE" 1000
       "North" "2" "A" "Hanako"].
Proof. reflexivity. Qed.

Lemma removeById_absent (id : string) (l : list ScannedItem.t) :
  ~ In id (map ScannedItem.id l) -> removeById id l = l.
Proof.
  induction l as [|x l IH]; simpl; intro H; [reflexivity|].
  destruct (String.eqb_spec (ScannedItem.id x) id) as [E|E]; simpl.
  - exfalso. apply H. left. exact E.
  - f_equal. apply IH. intro Hin. apply H. right. exact Hin.
Qed.

Lemma removeById_app (id : string) (l1 l2 : list ScannedItem.t) :
  removeById id (l1 ++ l2) = (removeById id l1 ++ removeById id l2)%list.
Proof. apply filter_app. Qed.

Lemma removeById_length (id : string) (l : list ScannedItem.t) :
  (List.length (removeById id l) <= List.length l)%nat.
Proof. apply filter_length_le. Qed.

(** Deleting splits the store around the record when ids are distinct. *)
Lemma removeById_unique (id : string) (l : list ScannedItem.t) :
  NoDup (map ScannedItem.id l) ->
  In id (map ScannedItem.id l) ->
  exists l1 x l2,
    l = (l1 ++ x :: l2)%list /\ ScannedItem.id x = id /\
    removeById id l = (l1 ++ l2)%list.
Proof.
  induction l as [|y l IH]; simpl; intros Hnd Hin; [contradiction|].
  inversion Hnd as [|? ? Hnotin Hnd']; subst.
  destruct (String.eqb_spec (ScannedItem.id y) id) as [E|E]; simpl.
  - exists [], y, l. simpl. repeat split; auto.
    apply removeById_absent. rewrite <- E. exact Hnotin.
  - destruct Hin as [Hin|Hin]; [contradiction|].
    destruct (IH Hnd' Hin) as (l1 & x & l2 & Hl & Hx & Hrm).
    exists (y :: l1), x, l2. simpl. rewrite Hl at 1. rewrite Hrm. auto.
Qed.

(** C7. In a store whose ids are pairwise distinct, deleting an id that is
    present removes the one record that carries it and keeps the records
    before and after it in their order; deleting an id that is absent
    returns the same store. Nothing else in the state changes. *)
Theorem delete_removes_exactly_one :
  forall (s : App.AppState) (id : string),
    NoDup (map ScannedItem.id (App.items s)) ->
    let s' := fst (App.handleDelete id s) in
    (In id (map ScannedItem.id (App.items s)) ->
     exists l1 x l2,
       App.items s = (l1 ++ x :: l2)%list /\ ScannedItem.id x = id /\
       App.items s' = (l1 ++ l2)%list /\
       S (List.length (App.items s')) = List.length (App.items s)) /\
    (~ In id (map ScannedItem.id (App.items s)) -> s' = s) /\
    App.metadata s' = App.metadata s /\
    App.lastScanRef s' = App.lastScanRef s /\
    App.toast s' = App.toast s /\
    snd (App.handleDelete id s) = [].
Proof.
  intros s id Hnd s'. subst s'. simpl. repeat split.
  - intro Hin.
    destruct (removeById_unique id (App.items s) Hnd Hin)
      as (l1 & x & l2 & Hl & Hx & Hrm).
    exists l1, x, l2. rewrite Hrm, Hl. repeat split; auto.
    rewrite !length_app. simpl. lia.
  - intro Hnot. unfold App.setItems.
    rewrite (removeById_absent id (App.items s) Hnot).
    destruct s; reflexivity.
Qed.

Lemma delete_removes_exactly_one_witness :
  NoDup (map ScannedItem.id (App.items twoScans)) /\
  let s' := fst (App.handleDelete "id-b" twoScans) in
  (In "id-b" (map ScannedItem.id (App.items twoScans)) ->
   exists l1 x l2,
     App.items twoScans = (l1 ++ x :: l2)%list /\ ScannedItem.id x = "id-b" /\
     App.items s' = (l1 ++ l2)%list /\
     S (List.length (App.items s')) = List.length (App.items twoScans)) /\
  (~ In "id-b" (map ScannedItem.id (App.items twoScans)) -> s' = twoScans) /\
  App.metadata s' = App.metadata twoScans /\
  App.lastScanRef s' = App.lastScanRef twoScans /\
  App.toast s' = App.toast twoScans /\
  snd (App.handleDelete "id-b" twoScans) = [].
Proof.
  assert (Hnd : NoDup (map ScannedItem.id (App.items twoScans))).
  { simpl. repeat constructor; simpl; intuition discriminate. }
  split; [exact Hnd|].
  apply (delete_removes_exactly_one twoScans "id-b" Hnd).
Defined.

Example delete_twoScans :
  App.items (fst (App.handleDelete "id-b" twoScans)) = [recordA] /\
  App.items (fst (App.handleDelete "id-a" twoScans)) = [recordB] /\
  fst (App.handleDelete "id-zz" twoScans) = twoScans.
Proof. repeat split. Qed.

(** ** Uniqueness of payloads in the store *)

Lemma uniquePayloads_filter (p : ScannedItem.t -> bool) (l : list ScannedItem.t) :
  uniquePayloads l -> uniquePayloads (filter p l).
Proof.
  unfold uniquePayloads. induction l as [|x l IH]; simpl; intro H; [exact H|].
  inversion H as [|? ? Hnotin Hnd]; subst.
  destruct (p x); simpl; [constructor|]; auto.
  intro Hin. apply Hnotin.
  apply in_map_iff in Hin. destruct Hin as (y & Hy & Hf).
  apply filter_In in Hf. apply in_map_iff. exists y. tauto.
Qed.

(** Every event of [App] keeps the payloads of the store distinct. *)
Lemma step_keeps_uniquePayloads (e : App.Event) (s : App.AppState) :
  uniquePayloads (App.items s) ->
  uniquePayloads (App.items (fst (App.step e s))).
Proof.
  intro H. destruct e as [now newId toastNow content format | name value
                         | id | confirmed | | | ]; simpl.
  - destruct (App.isScanningPaused s); [exact H|].
    scan_cases now content s; simpl; try exact H.
    constructor; [|exact H]. apply isDuplicate_false. assumption.
  - unfold uniquePayloads. rewrite map_map. exact H.
  - apply uniquePayloads_filter. exact H.
  - destruct confirmed; simpl; [constructor | exact H].
  - exact H.
  - exact H.
  - exact H.
Qed.

Lemma run_keeps_uniquePayloads (es : list App.Event) :
  forall s, uniquePayloads (App.items s) ->
            uniquePayloads (App.items (App.run es s)).
Proof.
  induction es as [|e es IH]; simpl; intros s H; [exact H|].
  apply IH. apply step_keeps_uniquePayloads. exact H.
Qed.

(** C1, for the component of src/App.tsx. In every state this component
    reaches from its initial state by scans, metadata edits, deletions,
    clears, toast time-outs and toggles, the payloads of the stored records
    are pairwise distinct; and in such a state a scan of a payload that is in
    the store creates no record, whether the cooldown test stops it or the
    look-up in the store does. *)
Theorem payloads_unique_in_reachable_states :
  forall s : App.AppState,
    App.reachable s ->
    NoDup (map ScannedItem.content (App.items s)) /\
    forall (now toastNow : Z) (newId P format : string),
      In P (map ScannedItem.content (App.items s)) ->
      App.items (fst (App.handleScan now newId toastNow P format s))
      = App.items s.
Proof.
  intros s [es <-]. split.
  - apply run_keeps_uniquePayloads. constructor.
  - intros now toastNow newId P format Hin.
    apply isDuplicate_true in Hin.
    scan_cases now P (App.run es App.initial);
      [reflexivity | reflexivity | congruence].
Qed.

Lemma payloads_unique_in_reachable_states_witness :
  App.reachable (App.run rescanRun App.initial) /\
  NoDup (map ScannedItem.content (App.items (App.run rescanRun App.initial))).
Proof.
  assert (Hr : App.reachable (App.run rescanRun App.initial))
    by (exists rescanRun; reflexivity).
  split; [exact Hr|].
  apply (payloads_unique_in_reachable_states _ Hr).
Defined.

Example rescanRun_store :
  map ScannedItem.id (App.items (App.run rescanRun App.initial))
  = ["id-4"; "id-2"].
Proof. reflexivity. Qed.

(** The analysis variant stores a payload again once its cooldown of two
    seconds is over: its [handleScan] never looks into the store. After
    [analysisRescan] its store holds the same payload twice. *)
Lemma analysis_variant_repeats_payload :
  AnalysisApp.reachable (AnalysisApp.run analysisRescan AnalysisApp.initial) /\
  map ScannedItem.content
    (AnalysisApp.items (AnalysisApp.run analysisRescan AnalysisApp.initial))
    = ["ticket-42"; "ticket-42"] /\
  ~ NoDup (map ScannedItem.content
             (AnalysisApp.items
                (AnalysisApp.run analysisRescan AnalysisApp.initial))).
Proof.
  split; [exists analysisRescan; reflexivity|].
  split; [reflexivity|].
  intro H. inversion H as [|? ? Hnotin _]; subst.
  apply Hnotin. left. reflexivity.
Qed.

(** ** The exporter *)

Lemma unquoteBody_safe (s : string) :
  unquoteBody (Js.replace_dquote s ++ quote) = Some s.
Proof.
  induction s as [|c s IH]; [reflexivity|].
  simpl. destruct (Ascii.eqb_spec c Js.dquote) as [E|E].
  - subst c. simpl. rewrite IH. reflexivity.
  - simpl. apply Ascii.eqb_neq in E. rewrite E, IH. reflexivity.
Qed.

(** What [safe] writes is a quoted field that reads back as its argument. *)
Lemma unquote_safe (s : string) : unquote (safe s) = Some s.
Proof. unfold safe. simpl. apply unquoteBody_safe. Qed.

Lemma endsWithDquote_cons (c : ascii) (s : string) :
  endsWithDquote s = true -> endsWithDquote (String c s) = true.
Proof. destruct s; simpl; [discriminate | auto]. Qed.

Lemma endsWithDquote_app (a b : string) :
  endsWithDquote b = true -> endsWithDquote (a ++ b) = true.
Proof.
  intro H. induction a as [|c a IH]; simpl; [exact H|].
  fold (append a b). apply endsWithDquote_cons. exact IH.
Qed.

Lemma unquoteBody_ends (n : nat) :
  forall s, (String.length s <= n)%nat ->
            unquoteBody s <> None -> endsWithDquote s = true.
Proof.
  induction n as [|n IH]; intros s Hlen Hsome.
  - destruct s; simpl in *; [congruence | lia].
  - destruct s as [|c rest]; simpl in *; [congruence|].
    destruct (Ascii.eqb c Js.dquote) eqn:Ec.
    + destruct rest as [|c2 rest2]; [reflexivity|].
      destruct (Ascii.eqb c2 Js.dquote) eqn:Ec2; [|congruence].
      assert (Hr : endsWithDquote rest2 = true).
      { apply IH; [simpl in Hlen; lia|].
        destruct (unquoteBody rest2); simpl in Hsome; congruence. }
      destruct rest2; [discriminate Hr | exact Hr].
    + assert (Hr : endsWithDquote rest = true).
      { apply IH; [lia|].
        destruct (unquoteBody rest); simpl in Hsome; congruence. }
      destruct rest; [discriminate Hr | exact Hr].
Qed.

Lemma quotedField_ends (field : string) :
  quotedField field -> endsWithDquote field = true.
Proof.
  unfold quotedField, unquote. destruct field as [|c rest]; [congruence|].
  destruct (Ascii.eqb c Js.dquote) eqn:Ec; [|congruence].
  intro H. apply (unquoteBody_ends (String.length rest)) in H; [|lia].
  apply endsWithDquote_cons. exact H.
Qed.

(** A row of quoted fields is empty or ends with a double quote. *)
Lemma allFieldsQuoted_ends (row : string) :
  allFieldsQuoted row -> row = EmptyString \/ endsWithDquote row = true.
Proof.
  intros [fields [-> Hall]].
  induction Hall as [|f rest Hf Hrest IH]; [left; reflexivity|].
  right. destruct rest as [|g rest'].
  - simpl. apply quotedField_ends. exact Hf.
  - change (Js.join "," (f :: g :: rest'))
      with (f ++ "," ++ Js.join "," (g :: rest')).
    do 2 apply endsWithDquote_app.
    destruct IH as [IH|IH]; [|exact IH].
    exfalso. inversion Hrest as [|? ? Hg _]; subst.
    apply quotedField_ends in Hg.
    destruct rest'; simpl in IH; [subst g; discriminate|].
    destruct g; discriminate.
Qed.

Lemma prefix_append (a b : string) : String.prefix a (a ++ b) = true.
Proof.
  induction a as [|c a IH]; simpl; [destruct b; reflexivity|].
  destruct (ascii_dec c c) as [_|N]; [exact IH | contradiction].
Qed.

Lemma items_nonempty_length (l : list ScannedItem.t) :
  l <> [] -> Nat.eqb (List.length l) 0 = false.
Proof. destruct l; [congruence | reflexivity]. Qed.

(** C4, as the code has it. For a non-empty store the downloaded text is the
    byte-order mark, the header line and one line per record, joined by line
    feeds. In each data row the five text fields (school, grade, class,
    inputter, payload) are enclosed in double quotes with their inner double
    quotes doubled, so that each reads back as the stored text; the timestamp
    is the locale string and the format is the stored text, both written
    without quotes. The payload that reads He said, then hi between double
    quotes, is written with each of its two double quotes doubled and one
    more at either end. *)
Theorem csv_download_text :
  forall (toLocaleString toISOString : Z -> string) (today : Z)
         (s : App.AppState),
    App.items s <> [] ->
    exists filename csvContent,
      App.handleDownloadCSV toLocaleString toISOString today s
        = (s, [DownloadFile filename "text/csv;charset=utf-8;" csvContent]) /\
      String.prefix BOM csvContent = true /\
      csvContent
        = BOM ++ Js.join newline
                   (App.headers :: map (App.csvRow toLocaleString) (App.items s)) /\
      Forall (fun item =>
                App.csvRow toLocaleString item
                = Js.join ","
                    [safe (ScannedItem.schoolName item);
                     safe (ScannedItem.grade item);
                     safe (ScannedItem.className item);
                     safe (ScannedItem.inputterName item);
                     toLocaleString (ScannedItem.timestamp item);
                     safe (ScannedItem.content item);
                     ScannedItem.format item])
             (App.items s) /\
      (forall text, unquote (safe text) = Some text) /\
      (forall text,
          safe text = quote ++ Js.replace_dquote text ++ quote) /\
      safe ("He said " ++ quote ++ "hi" ++ quote)
        = quote ++ "He said " ++ quote ++ quote ++ "hi"
            ++ quote ++ quote ++ quote.
Proof.
  intros toLocaleString toISOString today s Hne.
  eexists. eexists. split.
  - unfold App.handleDownloadCSV.
    rewrite (items_nonempty_length _ Hne). reflexivity.
  - split; [apply prefix_append|]. split; [reflexivity|]. split.
    + apply Forall_forall. intros item _. reflexivity.
    + split; [exact unquote_safe|]. split; reflexivity.
Qed.

Lemma csv_download_text_witness :
  App.items twoScans <> [] /\
  exists filename csvContent,
    App.handleDownloadCSV sampleDate sampleISO 0 twoScans
      = (twoScans, [DownloadFile filename "text/csv;charset=utf-8;" csvContent]) /\
    String.prefix BOM csvContent = true.
Proof.
  assert (Hne : App.items twoScans <> []) by discriminate.
  split; [exact Hne|].
  destruct (csv_download_text sampleDate sampleISO 0 twoScans Hne)
    as (filename & csvContent & Hrun & Hbom & _).
  exists filename, csvContent. split; assumption.
Defined.

(** The row written for [recordQ]. *)
Example csvRow_recordQ :
  App.csvRow sampleDate recordQ
  = quote ++ "North" ++ quote ++ "," ++ quote ++ "1" ++ quote ++ ","
      ++ quote ++ "A" ++ quote ++ "," ++ quote ++ "Hanako" ++ quote ++ ","
      ++ "2026/11/2 19:21:00,"
      ++ quote ++ "He said " ++ quote ++ quote ++ "hi" ++ quote ++ quote ++ quote
      ++ ",QR_CODE".
Proof. reflexivity. Qed.

(** The download of the store that holds [recordQ] alone. *)
Example download_recordQ :
  snd (App.handleDownloadCSV sampleDate sampleISO 0
         (App.setItems (fun _ => [recordQ]) App.initial))
  = [DownloadFile "スキャン結果_2026-11-02.csv" "text/csv;charset=utf-8;"
       (BOM ++ "学校名,学年,クラス,入力者名,スキャン日時,内容,形式" ++ newline
          ++ quote ++ "North" ++ quote ++ "," ++ quote ++ "1" ++ quote ++ ","
          ++ quote ++ "A" ++ quote ++ "," ++ quote ++ "Hanako" ++ quote ++ ","
          ++ "2026/11/2 19:21:00,"
          ++ quote ++ "He said " ++ quote ++ quote ++ "hi" ++ quote ++ quote
          ++ quote ++ ",QR_CODE")].
Proof. reflexivity. Qed.

(** The claim that every field of every data row is quoted fails on the
    store that holds [recordQ] alone: its row ends with the format, which is
    written bare (and so is the timestamp before the payload). *)
Lemma csv_row_has_unquoted_fields :
  ~ (forall row,
        In row (map (App.csvRow sampleDate) [recordQ]) -> allFieldsQuoted row).
Proof.
  intro H.
  destruct (allFieldsQuoted_ends _ (H _ (or_introl eq_refl))) as [E|E];
    vm_compute in E; discriminate.
Qed.

(** C5. With an empty store the two export handlers of src/App.tsx return
    at their first line: the state is the one they were called in and no
    effect (clipboard write, alert, download) is performed. The same holds
    for a click on either export button, in src/App.tsx and in the analysis
    variant, whose buttons are disabled while the store is empty. *)
Theorem export_of_empty_store_is_noop :
  forall (toLocaleString toISOString : Z -> string) (today : Z)
         (s : App.AppState) (l : AnalysisApp.AppState),
    App.items s = [] ->
    AnalysisApp.items l = [] ->
    App.handleCopyAll toLocaleString s = (s, []) /\
    App.handleDownloadCSV toLocaleString toISOString today s = (s, []) /\
    App.copyAllButton toLocaleString s = (s, []) /\
    App.downloadCSVButton toLocaleString toISOString today s = (s, []) /\
    AnalysisApp.copyAllButton l = (l, []) /\
    AnalysisApp.downloadCSVButton toLocaleString toISOString today l = (l, []).
Proof.
  intros toLocaleString toISOString today s l Hs Hl.
  unfold App.handleCopyAll, App.handleDownloadCSV, App.copyAllButton,
    App.downloadCSVButton, AnalysisApp.copyAllButton, AnalysisApp.downloadCSVButton,
    button_onClick.
  rewrite Hs, Hl. simpl. repeat split.
Qed.

Lemma export_of_empty_store_is_noop_witness :
  App.items App.initial = [] /\
  AnalysisApp.items AnalysisApp.initial = [] /\
  App.handleCopyAll sampleDate App.initial = (App.initial, []) /\
  App.handleDownloadCSV sampleDate sampleISO 0 App.initial = (App.initial, []) /\
  App.copyAllButton sampleDate App.initial = (App.initial, []) /\
  App.downloadCSVButton sampleDate sampleISO 0 App.initial = (App.initial, []) /\
  AnalysisApp.copyAllButton AnalysisApp.initial = (AnalysisApp.initial, []) /\
  AnalysisApp.downloadCSVButton sampleDate sampleISO 0 AnalysisApp.initial
    = (AnalysisApp.initial, []).
Proof.
  split; [reflexivity|]. split; [reflexivity|].
  apply (export_of_empty_store_is_noop sampleDate sampleISO 0
           App.initial AnalysisApp.initial); reflexivity.
Defined.

(** Both export handlers leave the state as it is, whatever the store. *)
Lemma export_keeps_state :
  forall (toLocaleString toISOString : Z -> string) (today : Z)
         (s : App.AppState),
    fst (App.handleCopyAll toLocaleString s) = s /\
    fst (App.handleDownloadCSV toLocaleString toISOString today s) = s.
Proof.
  intros. unfold App.handleCopyAll, App.handleDownloadCSV.
  destruct (Nat.eqb (List.length (App.items s)) 0); split; reflexivity.
Qed.

(** The handlers of the analysis variant do not test the store themselves:
    called on an empty store, which its disabled buttons prevent, they would
    write the empty string to the clipboard and download the header line. *)
Remark analysis_variant_handlers_unguarded :
  AnalysisApp.handleCopyAll AnalysisApp.initial
    = (AnalysisApp.initial,
       [ClipboardWriteText ""; Alert "All items copied to clipboard!"]) /\
  snd (AnalysisApp.handleDownloadCSV sampleDate sampleISO 0 AnalysisApp.initial)
    = [DownloadFile "scan_results_2026-11-02.csv" "text/csv;charset=utf-8;"
         (BOM ++ AnalysisApp.headers)].
Proof. split; reflexivity. Qed.

(** ** The insight service *)

Section InsightService.

Variable toLocaleTimeString : Z -> string.
Variable endpoint :
  string -> GeminiService.GenerateContentParameters ->
  GeminiService.Completion (option string).

Let analyze := GeminiService.analyzeScannedItems toLocaleTimeString endpoint.

Lemma analyze_not_configured (API_KEY : option string)
    (items : list ScannedItem.t) :
  Js.truthy API_KEY = false ->
  analyze API_KEY items
  = (GeminiService.Normal GeminiService.notConfigured, []).
Proof.
  intro H. unfold analyze, GeminiService.analyzeScannedItems.
  rewrite H. reflexivity.
Qed.

Lemma analyze_no_items (API_KEY : option string) :
  Js.truthy API_KEY = true ->
  analyze API_KEY [] = (GeminiService.Normal GeminiService.noItems, []).
Proof.
  intro H. unfold analyze, GeminiService.analyzeScannedItems.
  rewrite H. reflexivity.
Qed.

(** With a key and a non-empty list, one request is sent and its completion
    decides the result. *)
Lemma analyze_request (apiKey : string) (item : ScannedItem.t)
    (items : list ScannedItem.t) :
  Js.truthy (Some apiKey) = true ->
  let request :=
    GeminiService.mkParams "gemini-2.5-flash"
      (GeminiService.prompt
         (Js.join newline
            (map (GeminiService.promptLine toLocaleTimeString) (item :: items))))
      "You are a helpful assistant analyzing a batch of scanned QR codes." in
  analyze (Some apiKey) (item :: items)
  = match endpoint apiKey request with
    | GeminiService.Normal text =>
        (GeminiService.Normal
           (if Js.truthy text
            then match text with
                 | Some t => t
                 | None => GeminiService.noText
                 end
            else GeminiService.noText),
         [GeminiService.NetworkRequest apiKey request])
    | GeminiService.Throw error =>
        (GeminiService.Normal GeminiService.failed,
         [GeminiService.NetworkRequest apiKey request;
          GeminiService.ConsoleError "Gemini analysis error:" error])
    end.
Proof.
  intros H request. unfold analyze, GeminiService.analyzeScannedItems.
  rewrite H. cbn [negb Nat.eqb List.length].
  unfold GeminiService.tryCatch, GeminiService.bind,
    GeminiService.generateContent, GeminiService.consoleError,
    GeminiService.ret.
  cbn [fst snd]. fold request.
  destruct (endpoint apiKey request) as [text|error]; reflexivity.
Qed.

End InsightService.

(** C8. [analyzeScannedItems] always completes with a string, never with a
    thrown error. Without a usable key (undefined or empty) it returns the
    not-configured text and performs no I/O; with an empty list it returns
    one of the two fixed advisory texts and performs no I/O; and when a
    request it sent ends in an error, it returns the fixed failure text. *)
Theorem analyze_always_returns_text :
  forall (toLocaleTimeString : Z -> string)
         (endpoint : string -> GeminiService.GenerateContentParameters ->
                     GeminiService.Completion (option string))
         (API_KEY : option string) (items : list ScannedItem.t),
    let r :=
      GeminiService.analyzeScannedItems toLocaleTimeString endpoint
        API_KEY items in
    (exists text, fst r = GeminiService.Normal text) /\
    (Js.truthy API_KEY = false ->
     r = (GeminiService.Normal GeminiService.notConfigured, [])) /\
    (items = [] ->
     r = (GeminiService.Normal
            (if Js.truthy API_KEY then GeminiService.noItems
             else GeminiService.notConfigured), [])) /\
    (forall apiKey request error,
        In (GeminiService.NetworkRequest apiKey request) (snd r) ->
        endpoint apiKey request = GeminiService.Throw error ->
        fst r = GeminiService.Normal GeminiService.failed).
Proof.
  intros toLocaleTimeString endpoint API_KEY items r. subst r.
  destruct (Js.truthy API_KEY) eqn:Hkey.
  - destruct API_KEY as [apiKey|]; [|discriminate Hkey].
    destruct items as [|item items].
    + rewrite analyze_no_items by exact Hkey. cbn [fst snd].
      split; [eauto|]. split; [discriminate|]. split; [reflexivity|].
      intros k q e [].
    + rewrite analyze_request by exact Hkey.
      match goal with
      | |- context [endpoint apiKey ?q] =>
          destruct (endpoint apiKey q) as [text|error] eqn:Hend
      end; cbn [fst snd];
        (split; [eauto|]; split; [discriminate|]; split; [discriminate|]).
      * intros k q e [Hin|[]] Hfail.
        congruence.
      * reflexivity.
  - rewrite analyze_not_configured by exact Hkey. cbn [fst snd].
    split; [eauto|]. split; [reflexivity|]. split; [reflexivity|].
    intros k q e [].
Qed.

Lemma analyze_always_returns_text_witness :
  GeminiService.analyzeScannedItems sampleTime endpointUp None [recordA]
    = (GeminiService.Normal GeminiService.notConfigured, []) /\
  GeminiService.analyzeScannedItems sampleTime endpointUp (Some "key") []
    = (GeminiService.Normal GeminiService.noItems, []) /\
  fst (GeminiService.analyzeScannedItems sampleTime endpointDown (Some "key")
         [recordA])
    = GeminiService.Normal GeminiService.failed.
Proof.
  destruct (analyze_always_returns_text sampleTime endpointUp None [recordA])
    as (_ & Hnokey & _ & _).
  destruct (analyze_always_returns_text sampleTime endpointUp (Some "key") [])
    as (_ & _ & Hempty & _).
  destruct (analyze_always_returns_text sampleTime endpointDown (Some "key")
              [recordA]) as (_ & _ & _ & Hfail).
  split; [apply Hnokey; reflexivity|].
  split; [apply Hempty; reflexivity|].
  eapply Hfail; [left; reflexivity | reflexivity].
Defined.

Example analyze_answer :
  GeminiService.analyzeScannedItems sampleTime endpointUp (Some "key")
    [recordB; recordA]
  = (GeminiService.Normal "Two URLs and one ticket number.",
     [GeminiService.NetworkRequest "key"
        (GeminiService.mkParams "gemini-2.5-flash"
           (GeminiService.prompt
              ("- ticket-42 (scanned at 19:21:00)" ++ newline
                 ++ "- https://example.org/a (scanned at 19:21:00)"))
           "You are a helpful assistant analyzing a batch of scanned QR codes.")]).
Proof. reflexivity. Qed.

(** * Further properties *)

(** ** Invariants of the store of [App] *)

Lemma stampedWith_filter (m : Metadata.t) (p : ScannedItem.t -> bool)
    (l : list ScannedItem.t) :
  Forall (stampedWith m) l -> Forall (stampedWith m) (filter p l).
Proof.
  rewrite !Forall_forall. intros H x Hx. apply filter_In in Hx. apply H, Hx.
Qed.

Lemma step_keeps_stamped (e : App.Event) (s : App.AppState) :
  Forall (stampedWith (App.metadata s)) (App.items s) ->
  Forall (stampedWith (App.metadata (fst (App.step e s))))
         (App.items (fst (App.step e s))).
Proof.
  intro H. destruct e as [now newId toastNow content format | name value
                         | id | confirmed | | | ]; simpl; try exact H.
  - destruct (App.isScanningPaused s); [exact H|].
    scan_cases now content s; simpl; try exact H.
    constructor; [|exact H]. repeat split.
  - apply Forall_forall. intros x Hx. apply in_map_iff in Hx.
    destruct Hx as (y & <- & _). repeat split.
  - apply stampedWith_filter. exact H.
  - destruct confirmed; simpl; [constructor | exact H].
Qed.

Lemma run_keeps_stamped (es : list App.Event) :
  forall s,
    Forall (stampedWith (App.metadata s)) (App.items s) ->
    Forall (stampedWith (App.metadata (App.run es s)))
           (App.items (App.run es s)).
Proof.
  induction es as [|e es IH]; simpl; intros s H; [exact H|].
  apply IH, step_keeps_stamped, H.
Qed.

(** X1. The records of the store always carry the current draft: in every
    reachable state of [App] the four metadata fields of every record are
    those of the draft. *)
Theorem store_carries_current_draft :
  forall s : App.AppState,
    App.reachable s ->
    Forall (stampedWith (App.metadata s)) (App.items s).
Proof.
  intros s [es <-]. apply run_keeps_stamped. constructor.
Qed.

Lemma store_carries_current_draft_witness :
  App.reachable (App.run rescanRun App.initial) /\
  Forall (stampedWith (App.metadata (App.run rescanRun App.initial)))
         (App.items (App.run rescanRun App.initial)).
Proof.
  assert (Hr : App.reachable (App.run rescanRun App.initial))
    by (exists rescanRun; reflexivity).
  split; [exact Hr|].
  apply (store_carries_current_draft _ Hr).
Defined.

(** X2. An edit that leaves the draft as it is (the value typed is the one the
    field has, or the input carries none of the four names) leaves the whole
    state of a reachable [App] as it is: no record changes. *)
Theorem edit_without_change_keeps_state :
  forall (s : App.AppState) (name value : string),
    App.reachable s ->
    Metadata.set (App.metadata s) name value = App.metadata s ->
    App.handleMetadataChange name value s = (s, []).
Proof.
  intros s name value Hr Hset.
  destruct Hr as [es <-].
  assert (Hst := run_keeps_stamped es App.initial (Forall_nil _)).
  set (s := App.run es App.initial) in *.
  unfold App.handleMetadataChange. rewrite Hset. f_equal.
  unfold App.setItems, App.setMetadata. simpl.
  replace (map _ (App.items s)) with (App.items s).
  - destruct s; reflexivity.
  - induction Hst as [|x l Hx _ IH]; simpl; [reflexivity|].
    rewrite <- IH. f_equal.
    destruct Hx as (H1 & H2 & H3 & H4).
    rewrite <- H1, <- H2, <- H3, <- H4. destruct x; reflexivity.
Qed.

Lemma edit_without_change_keeps_state_witness :
  App.reachable (App.run rescanRun App.initial) /\
  App.handleMetadataChange "grade" "" (App.run rescanRun App.initial)
  = (App.run rescanRun App.initial, []).
Proof.
  assert (Hr : App.reachable (App.run rescanRun App.initial))
    by (exists rescanRun; reflexivity).
  split; [exact Hr|].
  apply (edit_without_change_keeps_state _ "grade" "" Hr). reflexivity.
Defined.

Lemma newestFirst_filter (p : ScannedItem.t -> bool) (l : list ScannedItem.t) :
  newestFirst (map ScannedItem.timestamp l) ->
  newestFirst (map ScannedItem.timestamp (filter p l)).
Proof.
  induction l as [|x l IH]; simpl; [auto|]. intros [Hx Hl].
  destruct (p x); simpl; [split|]; auto.
  rewrite Forall_forall in *. intros u Hu. apply Hx.
  apply in_map_iff in Hu. destruct Hu as (y & <- & Hy).
  apply filter_In in Hy. apply in_map. apply Hy.
Qed.

Lemma orderedUpTo_later (t t' : Z) (l : list ScannedItem.t) :
  t <= t' -> orderedUpTo t l -> orderedUpTo t' l.
Proof.
  intros Ht [Hb Hs]. split; [|exact Hs].
  rewrite Forall_forall in *. intros u Hu. specialize (Hb u Hu). lia.
Qed.

Lemma run_keeps_ordered (es : list App.Event) :
  forall s t,
    orderedUpTo t (App.items s) ->
    clockMonotone t es ->
    newestFirst (map ScannedItem.timestamp (App.items (App.run es s))).
Proof.
  induction es as [|e es IH]; intros s t Hord Hclock; [apply Hord|].
  destruct e as [now newId toastNow content format | name value
                | id | confirmed | | | ]; simpl in *.
  - destruct Hclock as [Ht Hclock].
    apply (orderedUpTo_later t now _ Ht) in Hord.
    apply (IH _ now); [|exact Hclock].
    destruct (App.isScanningPaused s); [exact Hord|].
    scan_cases now content s; simpl; try exact Hord.
    destruct Hord as [Hb Hs]. split; simpl.
    + constructor; [lia | exact Hb].
    + split; assumption.
  - apply (IH _ t); [|exact Hclock]. unfold orderedUpTo in *.
    cbn [App.handleMetadataChange App.setItems App.items fst].
    rewrite map_map. cbn [ScannedItem.timestamp]. exact Hord.
  - apply (IH _ t); [|exact Hclock]. destruct Hord as [Hb Hs].
    split; [|apply newestFirst_filter; exact Hs].
    rewrite Forall_forall in *. intros u Hu. apply Hb.
    apply in_map_iff in Hu. destruct Hu as (y & <- & Hy).
    apply filter_In in Hy. apply in_map. apply Hy.
  - apply (IH _ t); [|exact Hclock].
    destruct confirmed; simpl; [split; constructor | exact Hord].
  - apply (IH _ t); assumption.
  - apply (IH _ t); assumption.
  - apply (IH _ t); assumption.
Qed.

(** X3. The store is newest first: when the clock read by successive scans never
    runs backwards, the timestamps of the stored records, read from the
    front, never increase, whatever edits, deletions and clears happen in
    between. *)
Theorem store_is_newest_first :
  forall (es : list App.Event) (t0 : Z),
    clockMonotone t0 es ->
    newestFirst (map ScannedItem.timestamp (App.items (App.run es App.initial))).
Proof.
  intros es t0 Hclock. apply (run_keeps_ordered es App.initial t0).
  - split; constructor.
  - exact Hclock.
Qed.

Lemma store_is_newest_first_witness :
  clockMonotone 0 rescanRun /\
  newestFirst
    (map ScannedItem.timestamp (App.items (App.run rescanRun App.initial))).
Proof.
  assert (Hc : clockMonotone 0 rescanRun) by (simpl; lia).
  split; [exact Hc|].
  apply (store_is_newest_first rescanRun 0 Hc).
Defined.

Lemma NoDup_subset_app {A : Type} (l l' r : list A) :
  NoDup l' -> (forall x, In x l' -> In x l) ->
  NoDup (l ++ r) -> NoDup (l' ++ r).
Proof.
  intros Hl' Hsub H. apply NoDup_app.
  - exact Hl'.
  - apply (NoDup_app_remove_l _ _ H).
  - intros a Ha Hr. apply Hsub in Ha.
    revert H Ha Hr. clear. induction l as [|x l IH]; simpl; [tauto|].
    intros H [->|Ha] Hr.
    + inversion H as [|? ? Hn _]; subst. apply Hn, in_or_app. right. exact Hr.
    + inversion H; subst. auto.
Qed.

Lemma removeById_keeps_ids_distinct (id : string) (l : list ScannedItem.t) :
  NoDup (map ScannedItem.id l) -> NoDup (map ScannedItem.id (removeById id l)).
Proof.
  unfold removeById. intro Hnd.
  induction l as [|x l IH]; [exact Hnd|].
  apply NoDup_cons_iff in Hnd. destruct Hnd as [Hfresh Hnd]. simpl.
  destruct (negb (String.eqb (ScannedItem.id x) id)); [|exact (IH Hnd)].
  simpl. apply NoDup_cons; [|exact (IH Hnd)].
  intro Hin. apply Hfresh. apply in_map_iff in Hin.
  destruct Hin as (y & Hy & Hf). apply filter_In in Hf.
  rewrite <- Hy. apply in_map. exact (proj1 Hf).
Qed.

Lemma handleMetadataChange_ids (name value : string) (s : App.AppState) :
  map ScannedItem.id (App.items (fst (App.handleMetadataChange name value s)))
  = map ScannedItem.id (App.items s).
Proof. simpl. rewrite map_map. reflexivity. Qed.

Lemma run_keeps_ids_distinct (es : list App.Event) :
  forall s,
    NoDup (map ScannedItem.id (App.items s) ++ scanIds es) ->
    NoDup (map ScannedItem.id (App.items (App.run es s))).
Proof.
  induction es as [|e es IH]; intros s H.
  - simpl in *. rewrite app_nil_r in H. exact H.
  - destruct e as [now newId toastNow content format | name value
                  | id | confirmed | | | ];
      cbn [App.run App.step scanIds] in *; try (apply IH; exact H).
    + apply IH. pose proof (NoDup_remove _ _ _ H) as [Hrest Hfresh].
      destruct (App.isScanningPaused s); [exact Hrest|].
      scan_cases now content s; simpl; try exact Hrest.
      constructor; assumption.
    + apply IH. rewrite handleMetadataChange_ids. exact H.
    + apply IH. apply (NoDup_subset_app (map ScannedItem.id (App.items s))).
      * apply removeById_keeps_ids_distinct.
        apply (NoDup_app_remove_r _ _ H).
      * intros x Hx. apply in_map_iff in Hx. destruct Hx as (y & <- & Hy).
        apply filter_In in Hy. apply in_map, Hy.
      * exact H.
    + apply IH. destruct confirmed; simpl; [|exact H].
      apply (NoDup_app_remove_l _ _ H).
Qed.

(** X4. When the identifiers drawn for the scans are pairwise distinct, the ids
    of the stored records are pairwise distinct in every state reached, so
    that a deletion removes one record. *)
Theorem distinct_scan_ids_give_distinct_record_ids :
  forall es : list App.Event,
    NoDup (scanIds es) ->
    NoDup (map ScannedItem.id (App.items (App.run es App.initial))).
Proof.
  intros es H. apply run_keeps_ids_distinct. exact H.
Qed.

Lemma distinct_scan_ids_give_distinct_record_ids_witness :
  NoDup (scanIds rescanRun) /\
  NoDup (map ScannedItem.id (App.items (App.run rescanRun App.initial))).
Proof.
  assert (H : NoDup (scanIds rescanRun)).
  { simpl. repeat constructor; simpl; intuition discriminate. }
  split; [exact H|].
  apply (distinct_scan_ids_give_distinct_record_ids rescanRun H).
Defined.

(** ** Deleting records *)

Lemma removeById_present_shorter (id : string) (l : list ScannedItem.t) :
  In id (map ScannedItem.id l) ->
  (List.length (removeById id l) < List.length l)%nat.
Proof.
  unfold removeById. intro Hin. induction l as [|y l IH]; [contradiction|].
  simpl. destruct (String.eqb_spec (ScannedItem.id y) id) as [E|E]; simpl.
  - pose proof (filter_length_le
                  (fun x => negb (String.eqb (ScannedItem.id x) id)) l).
    lia.
  - destruct Hin as [Hin|Hin]; [contradiction|].
    specialize (IH Hin). lia.
Qed.

(** X5. [handleDelete] removes every record that carries the id, also when
    several do, and nothing else: no record with the id is left, the records
    with another id stay and keep their order (the new store is the old one
    restricted to them), and the store never grows. *)
Theorem delete_removes_all_with_id :
  forall (s : App.AppState) (id : string),
    let after := App.items (fst (App.handleDelete id s)) in
    ~ In id (map ScannedItem.id after) /\
    (forall x, In x after <-> In x (App.items s) /\ ScannedItem.id x <> id) /\
    after = filter (fun x => negb (String.eqb (ScannedItem.id x) id))
                   (App.items s) /\
    (List.length after <= List.length (App.items s))%nat /\
    (In id (map ScannedItem.id (App.items s)) ->
     (List.length after < List.length (App.items s))%nat).
Proof.
  intros s id after. subst after. simpl. unfold removeById.
  split; [|split; [|split; [reflexivity|split]]].
  - intro Hin. apply in_map_iff in Hin. destruct Hin as (x & Hid & Hx).
    apply filter_In in Hx. destruct Hx as [_ Hx].
    apply negb_true_iff, String.eqb_neq in Hx. contradiction.
  - intro x. rewrite filter_In, negb_true_iff, String.eqb_neq. reflexivity.
  - apply filter_length_le.
  - apply removeById_present_shorter.
Qed.

(** X6. The delete button of a row of [HistoryList] passes the id of a record of
    the list, so a click on it always makes the store shorter. *)
Theorem delete_button_shrinks_store :
  forall (s : App.AppState) (id : string),
    In id (HistoryList.deleteButtons (App.items s)) ->
    (List.length (App.items (fst (App.handleDelete id s)))
     < List.length (App.items s))%nat.
Proof.
  intros s id Hin. unfold HistoryList.deleteButtons in Hin.
  destruct (Nat.eqb (List.length (App.items s)) 0); [contradiction|].
  simpl. apply removeById_present_shorter. exact Hin.
Qed.

Lemma delete_button_shrinks_store_witness :
  In "id-a" (HistoryList.deleteButtons (App.items twoScans)) /\
  (List.length (App.items (fst (App.handleDelete "id-a" twoScans)))
   < List.length (App.items twoScans))%nat.
Proof.
  assert (H : In "id-a" (HistoryList.deleteButtons (App.items twoScans)))
    by (simpl; auto).
  split; [exact H|].
  apply (delete_button_shrinks_store twoScans "id-a" H).
Defined.

Lemma removeById_comm (a b : string) (l : list ScannedItem.t) :
  removeById a (removeById b l) = removeById b (removeById a l).
Proof.
  unfold removeById. induction l as [|x l IH]; [reflexivity|].
  simpl.
  destruct (String.eqb (ScannedItem.id x) a) eqn:Ea;
    destruct (String.eqb (ScannedItem.id x) b) eqn:Eb;
    simpl; rewrite ?Ea, ?Eb; simpl; rewrite ?IH; reflexivity.
Qed.

Lemma removeById_idem (a : string) (l : list ScannedItem.t) :
  removeById a (removeById a l) = removeById a l.
Proof.
  unfold removeById. induction l as [|x l IH]; [reflexivity|].
  simpl. destruct (String.eqb (ScannedItem.id x) a) eqn:Ea; simpl;
    rewrite ?Ea; simpl; rewrite ?IH; reflexivity.
Qed.

(** X7. Deletions compose: deleting the same id a second time changes nothing,
    and two deletions give the same state in either order. *)
Theorem deletes_idempotent_and_commute :
  forall (s : App.AppState) (a b : string),
    fst (App.handleDelete a (fst (App.handleDelete a s)))
      = fst (App.handleDelete a s) /\
    fst (App.handleDelete a (fst (App.handleDelete b s)))
      = fst (App.handleDelete b (fst (App.handleDelete a s))).
Proof.
  intros s a b. simpl. unfold App.setItems. simpl.
  rewrite removeById_idem, (removeById_comm a b). split; reflexivity.
Qed.

(** ** Editing the draft *)

Lemma Metadata_set_idem (m : Metadata.t) (name value : string) :
  Metadata.set (Metadata.set m name value) name value
  = Metadata.set m name value.
Proof.
  unfold Metadata.set. simpl.
  destruct (String.eqb name "schoolName"), (String.eqb name "grade"),
    (String.eqb name "className"), (String.eqb name "inputterName");
    reflexivity.
Qed.

Lemma Metadata_set_overwrite (m : Metadata.t) (name v1 v2 : string) :
  Metadata.set (Metadata.set m name v1) name v2 = Metadata.set m name v2.
Proof.
  unfold Metadata.set. simpl.
  destruct (String.eqb name "schoolName"), (String.eqb name "grade"),
    (String.eqb name "className"), (String.eqb name "inputterName");
    reflexivity.
Qed.

Lemma Metadata_set_comm (m : Metadata.t) (n1 n2 v1 v2 : string) :
  n1 <> n2 ->
  Metadata.set (Metadata.set m n1 v1) n2 v2
  = Metadata.set (Metadata.set m n2 v2) n1 v1.
Proof.
  intro Hne. unfold Metadata.set. simpl.
  destruct (String.eqb_spec n1 "schoolName"), (String.eqb_spec n2 "schoolName"),
    (String.eqb_spec n1 "grade"), (String.eqb_spec n2 "grade"),
    (String.eqb_spec n1 "className"), (String.eqb_spec n2 "className"),
    (String.eqb_spec n1 "inputterName"), (String.eqb_spec n2 "inputterName");
    subst; try reflexivity; try congruence.
Qed.

(** The state after an edit depends on the store only through the ids,
    payloads, formats and timestamps of its records. *)
Lemma handleMetadataChange_after_edit (n1 v1 n2 v2 : string) (s : App.AppState) :
  fst (App.handleMetadataChange n2 v2 (fst (App.handleMetadataChange n1 v1 s)))
  = App.setItems
      (map (fun item =>
              ScannedItem.mk (ScannedItem.id item) (ScannedItem.content item)
                (ScannedItem.format item) (ScannedItem.timestamp item)
                (Metadata.schoolName
                   (Metadata.set (Metadata.set (App.metadata s) n1 v1) n2 v2))
                (Metadata.grade
                   (Metadata.set (Metadata.set (App.metadata s) n1 v1) n2 v2))
                (Metadata.className
                   (Metadata.set (Metadata.set (App.metadata s) n1 v1) n2 v2))
                (Metadata.inputterName
                   (Metadata.set (Metadata.set (App.metadata s) n1 v1) n2 v2))))
      (App.setMetadata
         (Metadata.set (Metadata.set (App.metadata s) n1 v1) n2 v2) s).
Proof.
  unfold App.handleMetadataChange, App.setItems, App.setMetadata. simpl.
  rewrite map_map. reflexivity.
Qed.

(** X8. Edits of the draft compose on the whole state, store included: the same
    edit twice is the edit once, a second value for the same field wins,
    and edits of two different fields give the same state in either
    order. *)
Theorem metadata_edits_compose :
  forall (s : App.AppState) (n1 n2 v1 v2 : string),
    fst (App.handleMetadataChange n1 v1 (fst (App.handleMetadataChange n1 v1 s)))
      = fst (App.handleMetadataChange n1 v1 s) /\
    fst (App.handleMetadataChange n1 v2 (fst (App.handleMetadataChange n1 v1 s)))
      = fst (App.handleMetadataChange n1 v2 s) /\
    (n1 <> n2 ->
     fst (App.handleMetadataChange n2 v2 (fst (App.handleMetadataChange n1 v1 s)))
     = fst (App.handleMetadataChange n1 v1 (fst (App.handleMetadataChange n2 v2 s)))).
Proof.
  intros s n1 n2 v1 v2. split; [|split].
  - rewrite handleMetadataChange_after_edit, Metadata_set_idem. reflexivity.
  - rewrite handleMetadataChange_after_edit, Metadata_set_overwrite.
    reflexivity.
  - intro Hne. rewrite !handleMetadataChange_after_edit.
    rewrite (Metadata_set_comm _ n1 n2 v1 v2 Hne). reflexivity.
Qed.

Lemma metadata_edits_compose_witness :
  fst (App.handleMetadataChange "grade" "2"
         (fst (App.handleMetadataChange "className" "B" twoScans)))
  = fst (App.handleMetadataChange "className" "B"
           (fst (App.handleMetadataChange "grade" "2" twoScans))).
Proof.
  apply (metadata_edits_compose twoScans "className" "grade" "B" "2").
  discriminate.
Defined.

(** ** Sequences of scans *)

Lemma scan_keeps_payloads (now toastNow : Z) (newId content format P : string)
    (s : App.AppState) :
  In P (map ScannedItem.content (App.items s)) ->
  In P (map ScannedItem.content
          (App.items (fst (App.handleScan now newId toastNow content format s)))).
Proof.
  intro H. scan_cases now content s; simpl; auto.
Qed.

Lemma passed_scan_is_stored (now toastNow : Z) (newId content format : string)
    (s : App.AppState) :
  App.inCooldown now content s = false ->
  In content
     (map ScannedItem.content
        (App.items (fst (App.handleScan now newId toastNow content format s)))) /\
  App.lastScanRef (fst (App.handleScan now newId toastNow content format s))
  = Some content.
Proof.
  intro Hgate. destruct (isDuplicate content (App.items s)) eqn:Hdup.
  - rewrite handleScan_duplicate by assumption. simpl.
    split; [apply isDuplicate_true; exact Hdup | reflexivity].
  - rewrite handleScan_accepted by assumption. simpl. auto.
Qed.

(** X9. Two different payloads, neither in the store, scanned one after the
    other at any two times: both are stored, the second in front of the
    first, in front of the records that were there, each with the id and
    format it came with, the time of its scan and the draft. *)
Theorem two_fresh_scans_stored_newest_first :
  forall (s : App.AppState) (P1 P2 f1 f2 id1 id2 : string)
         (t1 t2 tt1 tt2 : Z),
    P1 <> P2 ->
    ~ In P1 (map ScannedItem.content (App.items s)) ->
    ~ In P2 (map ScannedItem.content (App.items s)) ->
    App.inCooldown t1 P1 s = false ->
    let s1 := fst (App.handleScan t1 id1 tt1 P1 f1 s) in
    let s2 := fst (App.handleScan t2 id2 tt2 P2 f2 s1) in
    App.items s2
    = ScannedItem.mk id2 P2 f2 t2
        (Metadata.schoolName (App.metadata s)) (Metadata.grade (App.metadata s))
        (Metadata.className (App.metadata s))
        (Metadata.inputterName (App.metadata s))
      :: ScannedItem.mk id1 P1 f1 t1
           (Metadata.schoolName (App.metadata s))
           (Metadata.grade (App.metadata s))
           (Metadata.className (App.metadata s))
           (Metadata.inputterName (App.metadata s))
      :: App.items s.
Proof.
  intros s P1 P2 f1 f2 id1 id2 t1 t2 tt1 tt2 Hne H1 H2 Hgate s1 s2.
  apply isDuplicate_false in H1.
  assert (Hs1 : s1 = fst (App.handleScan t1 id1 tt1 P1 f1 s)) by reflexivity.
  rewrite handleScan_accepted in Hs1 by assumption. simpl in Hs1.
  assert (Hgate2 : App.inCooldown t2 P2 s1 = false).
  { apply inCooldown_false. left. rewrite Hs1. simpl. congruence. }
  assert (Hdup2 : isDuplicate P2 (App.items s1) = false).
  { apply isDuplicate_false. rewrite Hs1. simpl. intros [E|E]; auto. }
  subst s2. rewrite handleScan_accepted by assumption.
  rewrite Hs1. reflexivity.
Qed.

Lemma two_fresh_scans_stored_newest_first_witness :
  map ScannedItem.id
    (App.items
       (fst (App.handleScan 9001 "id-d" 9001 "ticket-44" "QR_CODE"
          (fst (App.handleScan 9000 "id-c" 9000 "ticket-43" "QR_CODE"
                  twoScans)))))
  = ["id-d"; "id-c"; "id-b"; "id-a"].
Proof.
  rewrite (two_fresh_scans_stored_newest_first twoScans "ticket-43" "ticket-44"
             "QR_CODE" "QR_CODE" "id-c" "id-d" 9000 9001 9000 9001).
  - reflexivity.
  - discriminate.
  - simpl. intuition discriminate.
  - simpl. intuition discriminate.
  - reflexivity.
Defined.

(** X10. The cooldown only covers an immediate repeat. Once another payload [B]
    has been scanned, a new scan of [A] passes the cooldown test however
    soon it comes: it beeps and raises the duplicate toast, and the store is
    left as it was. *)
Theorem alternating_scans_bypass_cooldown :
  forall (s : App.AppState) (A B fA fB fA' idA idB idA' : string)
         (tA tB tA' ttA ttB ttA' : Z),
    A <> B ->
    App.inCooldown tA A s = false ->
    let s1 := fst (App.handleScan tA idA ttA A fA s) in
    let s2 := fst (App.handleScan tB idB ttB B fB s1) in
    let r3 := App.handleScan tA' idA' ttA' A fA' s2 in
    snd r3 = [PlayScanBeep] /\
    App.toast (fst r3)
      = Some (App.Toast.mk App.duplicateMessage App.Toast.warning ttA') /\
    App.items (fst r3) = App.items s2.
Proof.
  intros s A B fA fB fA' idA idB idA' tA tB tA' ttA ttB ttA' Hne Hgate
         s1 s2 r3.
  destruct (passed_scan_is_stored tA ttA idA A fA s Hgate) as [Hin1 Href1].
  fold s1 in Hin1, Href1.
  assert (HgateB : App.inCooldown tB B s1 = false).
  { apply inCooldown_false. left. rewrite Href1. congruence. }
  destruct (passed_scan_is_stored tB ttB idB B fB s1 HgateB) as [_ Href2].
  pose proof (scan_keeps_payloads tB ttB idB B fB A s1 Hin1) as Hin2.
  fold s2 in Href2, Hin2.
  assert (HgateA : App.inCooldown tA' A s2 = false).
  { apply inCooldown_false. left. rewrite Href2. congruence. }
  apply isDuplicate_true in Hin2.
  subst r3. rewrite handleScan_duplicate by assumption. simpl. auto.
Qed.

Lemma alternating_scans_bypass_cooldown_witness :
  let s1 := fst (App.handleScan 1000 "i1" 1000 "A" "QR_CODE" App.initial) in
  let s2 := fst (App.handleScan 1001 "i2" 1001 "B" "QR_CODE" s1) in
  let r3 := App.handleScan 1002 "i3" 1002 "A" "QR_CODE" s2 in
  snd r3 = [PlayScanBeep] /\
  App.toast (fst r3)
    = Some (App.Toast.mk App.duplicateMessage App.Toast.warning 1002) /\
  App.items (fst r3) = App.items s2.
Proof.
  apply (alternating_scans_bypass_cooldown App.initial "A" "B").
  - discriminate.
  - reflexivity.
Defined.

(** ** The two exports of [App] *)

(** X11. On a store that is not empty, copy-all writes one text to the clipboard
    and then shows the alert, and the download holds the byte-order mark
    followed by that same text, under a name built from the first ten
    characters of the ISO date. Neither export changes the state. *)
Theorem download_is_bom_and_clipboard_text :
  forall (toLocaleString toISOString : Z -> string) (today : Z)
         (s : App.AppState),
    App.items s <> [] ->
    exists text,
      App.handleCopyAll toLocaleString s
        = (s, [ClipboardWriteText text; Alert App.copiedMessage]) /\
      App.handleDownloadCSV toLocaleString toISOString today s
        = (s, [DownloadFile
                 ("スキャン結果_" ++ substring 0 10 (toISOString today) ++ ".csv")
                 "text/csv;charset=utf-8;" (BOM ++ text)]).
Proof.
  intros toLocaleString toISOString today s Hne.
  eexists. unfold App.handleCopyAll, App.handleDownloadCSV.
  rewrite (items_nonempty_length _ Hne). split; reflexivity.
Qed.

Lemma download_is_bom_and_clipboard_text_witness :
  App.items twoScans <> [] /\
  exists text,
    App.handleCopyAll sampleDate twoScans
      = (twoScans, [ClipboardWriteText text; Alert App.copiedMessage]) /\
    App.handleDownloadCSV sampleDate sampleISO 0 twoScans
      = (twoScans,
         [DownloadFile
            ("スキャン結果_" ++ substring 0 10 (sampleISO 0) ++ ".csv")
            "text/csv;charset=utf-8;" (BOM ++ text)]).
Proof.
  assert (Hne : App.items twoScans <> []) by discriminate.
  split; [exact Hne|].
  apply (download_is_bom_and_clipboard_text sampleDate sampleISO 0 twoScans Hne).
Defined.

Lemma countDquote_app (a b : string) :
  countDquote (a ++ b) = (countDquote a + countDquote b)%nat.
Proof. induction a as [|c a IH]; simpl; [reflexivity|]. rewrite IH. lia. Qed.

Lemma countDquote_replace (s : string) :
  countDquote (Js.replace_dquote s) = (2 * countDquote s)%nat.
Proof.
  induction s as [|c s IH]; simpl; [reflexivity|].
  destruct (Ascii.eqb c Js.dquote) eqn:E; simpl; rewrite ?E, IH; simpl; lia.
Qed.

Lemma replace_dquote_free (s : string) :
  countDquote s = 0%nat -> Js.replace_dquote s = s.
Proof.
  induction s as [|c s IH]; simpl; [reflexivity|].
  destruct (Ascii.eqb c Js.dquote); simpl; [discriminate|].
  intro H. rewrite IH by exact H. reflexivity.
Qed.

(** X12. The quoting of the export keeps texts apart and balanced: two texts that
    are written the same are the same text; the field holds twice the double
    quotes of the text, and two more; and a text without double quotes is
    written as it is between the two enclosing ones. *)
Theorem safe_is_injective_and_balanced :
  forall a b : string,
    (safe a = safe b -> a = b) /\
    countDquote (safe a) = (2 * countDquote a + 2)%nat /\
    (countDquote a = 0%nat -> safe a = quote ++ a ++ quote).
Proof.
  intros a b. split; [|split].
  - intro H. pose proof (unquote_safe a) as Ha. rewrite H, unquote_safe in Ha.
    congruence.
  - unfold safe. simpl. rewrite countDquote_app, countDquote_replace.
    simpl. lia.
  - intro H. unfold safe. rewrite (replace_dquote_free a H). reflexivity.
Qed.

Lemma safe_is_injective_and_balanced_witness :
  safe "ticket-42" = quote ++ "ticket-42" ++ quote.
Proof.
  apply (safe_is_injective_and_balanced "ticket-42" ""). reflexivity.
Defined.

Lemma countLF_app (a b : string) :
  countLF (a ++ b) = (countLF a + countLF b)%nat.
Proof. induction a as [|c a IH]; simpl; [reflexivity|]. rewrite IH. lia. Qed.

Lemma countLF_replace (s : string) :
  countLF (Js.replace_dquote s) = countLF s.
Proof.
  induction s as [|c s IH]; simpl; [reflexivity|].
  destruct (Ascii.eqb c Js.dquote) eqn:E; simpl; rewrite IH.
  - apply Ascii.eqb_eq in E. subst c. reflexivity.
  - reflexivity.
Qed.

Lemma countLF_safe (s : string) : countLF (safe s) = countLF s.
Proof.
  unfold safe. simpl. rewrite countLF_app, countLF_replace. simpl. lia.
Qed.

Lemma countLF_join_lines (first : string) (rest : list string) :
  countLF first = 0%nat ->
  Forall (fun row => countLF row = 0%nat) rest ->
  countLF (Js.join newline (first :: rest)) = List.length rest.
Proof.
  intros Hfirst Hrest. revert first Hfirst.
  induction Hrest as [|row rest Hrow _ IH]; intros first Hfirst.
  - simpl. exact Hfirst.
  - change (Js.join newline (first :: row :: rest))
      with (first ++ newline ++ Js.join newline (row :: rest)).
    rewrite !countLF_app, Hfirst, (IH row Hrow). reflexivity.
Qed.

(** X13. One line per record. When no text field, date string or format of the
    store holds a line feed, the downloaded text holds as many line feeds as
    the store has records: the header line and one line for each record,
    with no line feed after the last. *)
Theorem csv_has_one_line_per_record :
  forall (toLocaleString toISOString : Z -> string) (today : Z)
         (s : App.AppState),
    App.items s <> [] ->
    Forall (fun item =>
              countLF (ScannedItem.schoolName item) = 0%nat /\
              countLF (ScannedItem.grade item) = 0%nat /\
              countLF (ScannedItem.className item) = 0%nat /\
              countLF (ScannedItem.inputterName item) = 0%nat /\
              countLF (toLocaleString (ScannedItem.timestamp item)) = 0%nat /\
              countLF (ScannedItem.content item) = 0%nat /\
              countLF (ScannedItem.format item) = 0%nat)
           (App.items s) ->
    exists filename text,
      snd (App.handleDownloadCSV toLocaleString toISOString today s)
        = [DownloadFile filename "text/csv;charset=utf-8;" text] /\
      countLF text = List.length (App.items s).
Proof.
  intros toLocaleString toISOString today s Hne Hall.
  unfold App.handleDownloadCSV. rewrite (items_nonempty_length _ Hne).
  eexists. eexists. split; [reflexivity|].
  rewrite countLF_app. change (countLF BOM) with 0%nat.
  rewrite countLF_join_lines.
  - rewrite length_map. reflexivity.
  - reflexivity.
  - apply Forall_forall. intros row Hrow. apply in_map_iff in Hrow.
    destruct Hrow as (item & <- & Hitem).
    rewrite Forall_forall in Hall.
    destruct (Hall item Hitem) as (H1 & H2 & H3 & H4 & H5 & H6 & H7).
    unfold App.csvRow. rewrite !countLF_app, !countLF_safe.
    rewrite H1, H2, H3, H4, H5, H6, H7. reflexivity.
Qed.

Lemma csv_has_one_line_per_record_witness :
  exists filename text,
    snd (App.handleDownloadCSV sampleDate sampleISO 0 twoScans)
      = [DownloadFile filename "text/csv;charset=utf-8;" text] /\
    countLF text = 2%nat.
Proof.
  apply (csv_has_one_line_per_record sampleDate sampleISO 0 twoScans).
  - discriminate.
  - repeat constructor.
Defined.

(** ** The variant with the analysis panel *)

Lemma analysis_edit_run_keeps_items (edits : list (string * string)) :
  forall s,
    AnalysisApp.items
      (AnalysisApp.run
         (map (fun e => AnalysisApp.MetadataChange (fst e) (snd e)) edits) s)
    = AnalysisApp.items s.
Proof.
  induction edits as [|e edits IH]; intro s; [reflexivity|].
  simpl. rewrite IH. reflexivity.
Qed.

(** X14. In the analysis variant a record keeps the draft it was scanned with:
    a scan that passes the cooldown test stores the record stamped with the
    draft of that moment, and no sequence of later edits of the draft changes
    any stored record. *)
Theorem analysis_variant_records_keep_snapshot :
  forall (s : AnalysisApp.AppState) (P format newId : string) (now : Z)
         (edits : list (string * string)),
    AnalysisApp.lastScanRef s <> Some P ->
    let s1 := fst (AnalysisApp.handleScan now newId P format s) in
    let s2 :=
      AnalysisApp.run
        (map (fun e => AnalysisApp.MetadataChange (fst e) (snd e)) edits) s1 in
    AnalysisApp.items s2
    = ScannedItem.mk newId P format now
        (Metadata.schoolName (AnalysisApp.metadata s))
        (Metadata.grade (AnalysisApp.metadata s))
        (Metadata.className (AnalysisApp.metadata s))
        (Metadata.inputterName (AnalysisApp.metadata s))
      :: AnalysisApp.items s.
Proof.
  intros s P format newId now edits Href s1 s2. subst s2.
  rewrite analysis_edit_run_keeps_items. subst s1.
  unfold AnalysisApp.handleScan.
  replace (Js.strict_eq_ref P (AnalysisApp.lastScanRef s)) with false.
  - reflexivity.
  - symmetry. destruct (Js.strict_eq_ref P (AnalysisApp.lastScanRef s)) eqn:E;
      [|reflexivity].
    apply strict_eq_ref_true in E. contradiction.
Qed.

Lemma analysis_variant_records_keep_snapshot_witness :
  map ScannedItem.grade
    (AnalysisApp.items
       (AnalysisApp.run
          (map (fun e => AnalysisApp.MetadataChange (fst e) (snd e))
               [("grade", "2"); ("className", "B")])
          (fst (AnalysisApp.handleScan 1000 "id-1" "ticket-42" "QR_CODE"
                  AnalysisApp.initial))))
  = [""].
Proof.
  rewrite (analysis_variant_records_keep_snapshot AnalysisApp.initial
             "ticket-42" "QR_CODE" "id-1" 1000
             [("grade", "2"); ("className", "B")]).
  - reflexivity.
  - discriminate.
Defined.

(** X15. In the analysis variant a clear leaves the cooldown reference alone: the
    payload scanned last before a confirmed clear, scanned again less than
    2000 ms after that scan, is dropped without any effect, and the store
    stays empty. *)
Theorem analysis_variant_clear_keeps_cooldown :
  forall (s : AnalysisApp.AppState) (P f1 f2 id1 id2 : string) (t1 t2 : Z),
    AnalysisApp.lastScanRef s <> Some P ->
    t2 - t1 < 2000 ->
    let s1 := fst (AnalysisApp.handleScan t1 id1 P f1 s) in
    let s2 := fst (AnalysisApp.handleClear true s1) in
    AnalysisApp.items s2 = [] /\
    AnalysisApp.handleScan t2 id2 P f2 s2 = (s2, []).
Proof.
  intros s P f1 f2 id1 id2 t1 t2 Href Ht s1 s2.
  split; [reflexivity|].
  apply analysis_variant_cooldown.
  - subst s2 s1. unfold AnalysisApp.handleScan.
    replace (Js.strict_eq_ref P (AnalysisApp.lastScanRef s)) with false.
    + reflexivity.
    + symmetry.
      destruct (Js.strict_eq_ref P (AnalysisApp.lastScanRef s)) eqn:E;
        [|reflexivity].
      apply strict_eq_ref_true in E. contradiction.
  - subst s2 s1. unfold AnalysisApp.handleScan.
    replace (Js.strict_eq_ref P (AnalysisApp.lastScanRef s)) with false.
    + simpl. exact Ht.
    + symmetry.
      destruct (Js.strict_eq_ref P (AnalysisApp.lastScanRef s)) eqn:E;
        [|reflexivity].
      apply strict_eq_ref_true in E. contradiction.
Qed.

Lemma analysis_variant_clear_keeps_cooldown_witness :
  let s1 := fst (AnalysisApp.handleScan 1000 "id-1" "ticket-42" "QR_CODE"
                   AnalysisApp.initial) in
  let s2 := fst (AnalysisApp.handleClear true s1) in
  AnalysisApp.items s2 = [] /\
  AnalysisApp.handleScan 1500 "id-2" "ticket-42" "QR_CODE" s2 = (s2, []).
Proof.
  apply (analysis_variant_clear_keeps_cooldown AnalysisApp.initial "ticket-42").
  - discriminate.
  - lia.
Defined.

(** ** The insight service and its caller *)

(** The outcomes of [analyzeScannedItems], by case. *)
Lemma analyze_cases (toLocaleTimeString : Z -> string)
    (endpoint : string -> GeminiService.GenerateContentParameters ->
                GeminiService.Completion (option string))
    (API_KEY : option string) (items : list ScannedItem.t) :
  let r :=
    GeminiService.analyzeScannedItems toLocaleTimeString endpoint
      API_KEY items in
  (Js.truthy API_KEY = false /\
   r = (GeminiService.Normal GeminiService.notConfigured, [])) \/
  (Js.truthy API_KEY = true /\ items = [] /\
   r = (GeminiService.Normal GeminiService.noItems, [])) \/
  (exists apiKey,
      API_KEY = Some apiKey /\ Js.truthy API_KEY = true /\ items <> [] /\
      ((exists reply,
           Js.truthy (Some reply) = true /\
           endpoint apiKey (requestFor toLocaleTimeString items)
             = GeminiService.Normal (Some reply) /\
           r = (GeminiService.Normal reply,
                [GeminiService.NetworkRequest apiKey
                   (requestFor toLocaleTimeString items)])) \/
       (exists text,
           Js.truthy text = false /\
           endpoint apiKey (requestFor toLocaleTimeString items)
             = GeminiService.Normal text /\
           r = (GeminiService.Normal GeminiService.noText,
                [GeminiService.NetworkRequest apiKey
                   (requestFor toLocaleTimeString items)])) \/
       (exists error,
           endpoint apiKey (requestFor toLocaleTimeString items)
             = GeminiService.Throw error /\
           r = (GeminiService.Normal GeminiService.failed,
                [GeminiService.NetworkRequest apiKey
                   (requestFor toLocaleTimeString items);
                 GeminiService.ConsoleError "Gemini analysis error:" error])))).
Proof.
  intro r. subst r. destruct (Js.truthy API_KEY) eqn:Hkey.
  - destruct API_KEY as [apiKey|]; [|discriminate Hkey].
    destruct items as [|item items].
    + right. left. rewrite analyze_no_items by exact Hkey. auto.
    + right. right. exists apiKey.
      split; [reflexivity|]. split; [reflexivity|]. split; [discriminate|].
      rewrite analyze_request by exact Hkey.
      fold (requestFor toLocaleTimeString (item :: items)).
      destruct (endpoint apiKey (requestFor toLocaleTimeString (item :: items)))
        as [text|error].
      * destruct (Js.truthy text) eqn:Htext.
        -- left. destruct text as [reply|]; [|discriminate Htext].
           exists reply. auto.
        -- right. left. exists text. auto.
      * right. right. exists error. auto.
  - left. rewrite analyze_not_configured by exact Hkey. auto.
Qed.

Lemma analyze_completes (toLocaleTimeString : Z -> string)
    (endpoint : string -> GeminiService.GenerateContentParameters ->
                GeminiService.Completion (option string))
    (API_KEY : option string) (items : list ScannedItem.t) :
  exists text,
    fst (GeminiService.analyzeScannedItems toLocaleTimeString endpoint
           API_KEY items) = GeminiService.Normal text.
Proof.
  destruct (analyze_cases toLocaleTimeString endpoint API_KEY items)
    as [[_ E] | [(_ & _ & E) | (apiKey & _ & _ & _ & H)]].
  - rewrite E. eexists. reflexivity.
  - rewrite E. eexists. reflexivity.
  - destruct H as [(reply & _ & _ & E) | [(text & _ & _ & E)
                                          | (error & _ & E)]];
      rewrite E; eexists; reflexivity.
Qed.


(** X17. The network is used exactly when there is a usable key and the list is
    not empty, and then once: the trace starts with one request, sent with
    the configured key to the model gemini-2.5-flash, and holds no other
    request; an error is logged only after a request. *)
Theorem analyze_sends_one_request_or_none :
  forall (toLocaleTimeString : Z -> string)
         (endpoint : string -> GeminiService.GenerateContentParameters ->
                     GeminiService.Completion (option string))
         (API_KEY : option string) (items : list ScannedItem.t),
    let trace :=
      snd (GeminiService.analyzeScannedItems toLocaleTimeString endpoint
             API_KEY items) in
    if Js.truthy API_KEY && negb (Nat.eqb (List.length items) 0)
    then exists apiKey request,
        API_KEY = Some apiKey /\
        GeminiService.model request = "gemini-2.5-flash" /\
        (trace = [GeminiService.NetworkRequest apiKey request] \/
         exists error,
           endpoint apiKey request = GeminiService.Throw error /\
           trace = [GeminiService.NetworkRequest apiKey request;
                    GeminiService.ConsoleError "Gemini analysis error:" error])
    else trace = [].
Proof.
  intros toLocaleTimeString endpoint API_KEY items trace. subst trace.
  destruct (analyze_cases toLocaleTimeString endpoint API_KEY items)
    as [[Hkey ->] | [(Hkey & -> & ->) | (apiKey & -> & Hkey & Hne & H)]].
  - rewrite Hkey. reflexivity.
  - rewrite Hkey. reflexivity.
  - rewrite Hkey, (items_nonempty_length _ Hne). simpl.
    exists apiKey, (requestFor toLocaleTimeString items).
    split; [reflexivity|]. split; [reflexivity|].
    destruct H as [(reply & _ & _ & ->) | [(text & _ & _ & ->)
                                           | (error & Herr & ->)]].
    + left. reflexivity.
    + left. reflexivity.
    + right. exists error. auto.
Qed.

Lemma run_setIsAnalyzing (es : list AnalysisApp.Event) :
  forall (b : bool) (s : AnalysisApp.AppState),
    AnalysisApp.run es (AnalysisApp.setIsAnalyzing b s)
    = AnalysisApp.setIsAnalyzing b (AnalysisApp.run es s).
Proof.
  induction es as [|e es IH]; intros b s; [reflexivity|].
  simpl. rewrite <- IH. f_equal.
  destruct e as [now newId content format | name value | id | confirmed];
    simpl.
  - destruct (AnalysisApp.isScanningPaused s); [reflexivity|].
    unfold AnalysisApp.handleScan. simpl.
    destruct (Js.strict_eq_ref content (AnalysisApp.lastScanRef s)
              && (now - AnalysisApp.lastScanTimeRef s <? AnalysisApp.cooldown));
      reflexivity.
  - reflexivity.
  - reflexivity.
  - destruct confirmed; reflexivity.
Qed.

(** X18. [handleAnalyze] does nothing on an empty store, not even a request.
    Otherwise, whatever the service meets and whatever the component handles
    while the request is pending (scans, edits, deletions, a clear), the
    handler ends with the busy flag off and with the panel showing the text
    the service returned for the records of the moment of the click; the
    store is the one the pending events left. *)
Theorem handleAnalyze_always_settles :
  forall (toLocaleTimeString : Z -> string)
         (endpoint : string -> GeminiService.GenerateContentParameters ->
                     GeminiService.Completion (option string))
         (API_KEY : option string) (pending : list AnalysisApp.Event)
         (s : AnalysisApp.AppState),
    let r :=
      AnalysisPanel.handleAnalyze toLocaleTimeString endpoint API_KEY
        pending s in
    let call :=
      GeminiService.analyzeScannedItems toLocaleTimeString endpoint API_KEY
        (AnalysisApp.items s) in
    if Nat.eqb (List.length (AnalysisApp.items s)) 0
    then r = (s, [])
    else
      AnalysisApp.isAnalyzing (fst r) = false /\
      (exists text,
          fst call = GeminiService.Normal text /\
          AnalysisApp.analysis (fst r) = Some text) /\
      AnalysisApp.items (fst r)
        = AnalysisApp.items (AnalysisApp.run pending s) /\
      snd r = snd call.
Proof.
  intros toLocaleTimeString endpoint API_KEY pending s r call.
  subst r. unfold AnalysisPanel.handleAnalyze.
  destruct (Nat.eqb (List.length (AnalysisApp.items s)) 0); [reflexivity|].
  fold call. cbn [fst snd].
  destruct (analyze_completes toLocaleTimeString endpoint
              API_KEY (AnalysisApp.items s)) as [text Htext].
  fold call in Htext. rewrite Htext. rewrite run_setIsAnalyzing. simpl.
  repeat split. exists text. auto.
Qed.

(** ** The frame loop of the [Scanner] components *)

Lemma onScanCalls_app (a b : list Scanner.Effect) :
  Scanner.onScanCalls (a ++ b)
  = (Scanner.onScanCalls a ++ Scanner.onScanCalls b)%list.
Proof.
  induction a as [|e a IH]; [reflexivity|].
  destruct e; simpl; rewrite IH; reflexivity.
Qed.

Lemma onScanCalls_decodeAndNotify (inversionAttempts : string)
    (frame : Scanner.Frame) :
  Scanner.onScanCalls (Scanner.decodeAndNotify inversionAttempts frame)
  = notified frame.
Proof.
  unfold Scanner.decodeAndNotify, notified.
  destruct (Scanner.decoded frame) as [[|c rest]|]; reflexivity.
Qed.

Lemma onScanCalls_scanFrame (isPaused : bool) (frame : Scanner.Frame) :
  Scanner.onScanCalls (Scanner.scanFrame isPaused frame)
  = if negb isPaused && Scanner.videoMounted frame
       && Scanner.canvasMounted frame && Scanner.haveEnoughData frame
       && Scanner.contextAvailable frame
    then notified frame else [].
Proof.
  unfold Scanner.scanFrame.
  destruct isPaused, (Scanner.videoMounted frame),
    (Scanner.canvasMounted frame), (Scanner.haveEnoughData frame),
    (Scanner.contextAvailable frame); cbn [negb orb andb];
    try reflexivity;
    rewrite onScanCalls_app, onScanCalls_decodeAndNotify, app_nil_r;
    reflexivity.
Qed.

Lemma onScanCalls_scanFrameFull (isPaused : bool) (frame : Scanner.Frame) :
  Scanner.onScanCalls (Scanner.scanFrameFull isPaused frame)
  = if negb isPaused && Scanner.videoMounted frame
       && Scanner.canvasMounted frame && Scanner.haveEnoughData frame
       && Scanner.contextAvailable frame
    then notified frame else [].
Proof.
  unfold Scanner.scanFrameFull.
  destruct isPaused, (Scanner.videoMounted frame),
    (Scanner.canvasMounted frame), (Scanner.haveEnoughData frame),
    (Scanner.contextAvailable frame); cbn [negb orb andb];
    try reflexivity;
    rewrite onScanCalls_app, onScanCalls_decodeAndNotify, app_nil_r;
    reflexivity.
Qed.

(** X19. The two [Scanner] components notify their parent on the same ticks and
    with the same arguments: given what a tick finds, both call [onScan]
    with the same payload and format, or both do not call it. *)
Theorem scanners_notify_alike :
  forall (isPaused : bool) (frame : Scanner.Frame),
    Scanner.onScanCalls (Scanner.scanFrame isPaused frame)
    = Scanner.onScanCalls (Scanner.scanFrameFull isPaused frame).
Proof.
  intros. rewrite onScanCalls_scanFrame, onScanCalls_scanFrameFull.
  reflexivity.
Qed.

(** X20. A tick calls [onScan] at most once, never while paused, never with an
    empty payload, and always with the format QR_CODE; it calls it with the
    decoded data exactly when it is not paused, both elements are mounted,
    the video has enough data, the canvas gives a context and the decoder
    returns a code whose data is not empty. *)
Theorem scanner_notifies_decoded_payload_once :
  forall (isPaused : bool) (frame : Scanner.Frame),
    let calls := Scanner.onScanCalls (Scanner.scanFrame isPaused frame) in
    (List.length calls <= 1)%nat /\
    (isPaused = true -> calls = []) /\
    (forall content format,
        In (content, format) calls ->
        content <> "" /\ format = "QR_CODE" /\
        Scanner.decoded frame = Some content) /\
    (forall data,
        isPaused = false -> Scanner.videoMounted frame = true ->
        Scanner.canvasMounted frame = true ->
        Scanner.haveEnoughData frame = true ->
        Scanner.contextAvailable frame = true ->
        Scanner.decoded frame = Some data -> data <> "" ->
        calls = [(data, "QR_CODE")]).
Proof.
  intros isPaused frame calls. subst calls. rewrite onScanCalls_scanFrame.
  split; [|split; [|split]].
  - destruct (_ && _); [|simpl; lia]. unfold notified.
    destruct (Scanner.decoded frame) as [[|c rest]|]; simpl; lia.
  - intros ->. reflexivity.
  - intros content format Hin.
    destruct (_ && _); [|contradiction]. unfold notified in Hin.
    destruct (Scanner.decoded frame) as [[|c rest]|]; try contradiction.
    destruct Hin as [Hin|[]]. injection Hin as <- <-.
    repeat split. discriminate.
  - intros data -> -> -> -> -> Hdec Hne. simpl. unfold notified.
    rewrite Hdec. destruct data; [contradiction | reflexivity].
Qed.

Lemma scanner_notifies_decoded_payload_once_witness :
  Scanner.onScanCalls
    (Scanner.scanFrame false (Scanner.mkFrame true true true true
                                (Some "ticket-42")))
  = [("ticket-42", "QR_CODE")].
Proof.
  apply (scanner_notifies_decoded_payload_once false
           (Scanner.mkFrame true true true true (Some "ticket-42")));
    (reflexivity || discriminate).
Defined.

(** X21. Re-arming the loop. The component that decodes the whole frame requests
    the next animation frame exactly once on every tick, as its last act.
    The component that decodes the centred region does the same while both
    elements are mounted, and does nothing at all once one is missing, which
    ends its loop. *)
Theorem scanner_rearms_once_per_tick :
  forall (isPaused : bool) (frame : Scanner.Frame),
    (exists before,
        Scanner.scanFrameFull isPaused frame
          = (before ++ [Scanner.RequestAnimationFrame])%list /\
        filter Scanner.isRequestAnimationFrame before = []) /\
    (if Scanner.videoMounted frame && Scanner.canvasMounted frame
     then exists before,
         Scanner.scanFrame isPaused frame
           = (before ++ [Scanner.RequestAnimationFrame])%list /\
         filter Scanner.isRequestAnimationFrame before = []
     else Scanner.scanFrame isPaused frame = []).
Proof.
  intros isPaused frame. split.
  - unfold Scanner.scanFrameFull, Scanner.decodeAndNotify.
    destruct isPaused; [exists []; split; reflexivity|].
    eexists. split; [reflexivity|].
    destruct (_ && _); [|reflexivity].
    destruct (Scanner.contextAvailable frame); [|reflexivity].
    destruct (Scanner.decoded frame) as [[|c rest]|]; reflexivity.
  - unfold Scanner.scanFrame, Scanner.decodeAndNotify.
    destruct (Scanner.videoMounted frame), (Scanner.canvasMounted frame);
      simpl; try reflexivity.
    destruct isPaused; [exists []; split; reflexivity|].
    eexists. split; [reflexivity|].
    destruct (Scanner.haveEnoughData frame); [|reflexivity].
    destruct (Scanner.contextAvailable frame); [|reflexivity].
    destruct (Scanner.decoded frame) as [[|c rest]|]; reflexivity.
Qed.

Lemma deliveredByScanner_payload (now toastNow : Z)
    (newId content format : string) :
  deliveredByScanner (App.Scan now newId toastNow content format) ->
  content <> "" /\ format = "QR_CODE".
Proof.
  intros (isPaused & frame & H).
  rewrite onScanCalls_scanFrame, onScanCalls_scanFrameFull in H.
  assert (Hin : In (content, format) (notified frame)).
  { destruct (_ && _); [tauto | destruct H as [[]|[]]]. }
  unfold notified in Hin.
  destruct (Scanner.decoded frame) as [[|c rest]|]; try contradiction.
  destruct Hin as [Hin|[]]. injection Hin as <- <-.
  split; [discriminate | reflexivity].
Qed.

Lemma run_keeps_scannedRecords (es : list App.Event) :
  forall s,
    Forall deliveredByScanner es ->
    Forall scannedRecord (App.items s) ->
    Forall scannedRecord (App.items (App.run es s)).
Proof.
  induction es as [|e es IH]; intros s Hes H; [exact H|].
  inversion Hes as [|? ? He Hes']; subst.
  cbn [App.run]. apply IH; [exact Hes'|].
  destruct e as [now newId toastNow content format | name value
                | id | confirmed | | | ]; cbn [App.step fst]; try exact H.
  - destruct (App.isScanningPaused s); [exact H|].
    scan_cases now content s; simpl; try exact H.
    constructor; [|exact H].
    apply (deliveredByScanner_payload now toastNow newId content format He).
  - simpl. apply Forall_forall. intros x Hx. apply in_map_iff in Hx.
    destruct Hx as (y & <- & Hy). rewrite Forall_forall in H.
    apply (H y Hy).
  - simpl. rewrite Forall_forall in *. intros x Hx.
    apply filter_In in Hx. apply H, Hx.
  - destruct confirmed; simpl; [constructor | exact H].
Qed.

(** X22. With scans delivered by a [Scanner], every record of the store of [App]
    has a payload that is not empty and the format QR_CODE, in every state
    reached, whatever edits, deletions and clears happen in between. *)
Theorem scanner_fed_store_holds_qr_records :
  forall es : list App.Event,
    Forall deliveredByScanner es ->
    Forall (fun item =>
              ScannedItem.content item <> "" /\
              ScannedItem.format item = "QR_CODE")
           (App.items (App.run es App.initial)).
Proof.
  intros es Hes.
  apply (run_keeps_scannedRecords es App.initial Hes). constructor.
Qed.

Lemma scanner_fed_store_holds_qr_records_witness :
  Forall deliveredByScanner rescanRun /\
  Forall (fun item =>
            ScannedItem.content item <> "" /\
            ScannedItem.format item = "QR_CODE")
         (App.items (App.run rescanRun App.initial)).
Proof.
  assert (H : Forall deliveredByScanner rescanRun).
  { assert (D : forall now newId toastNow c rest,
               deliveredByScanner
                 (App.Scan now newId toastNow (String c rest) "QR_CODE")).
    { intros. exists false,
        (Scanner.mkFrame true true true true (Some (String c rest))).
      left. simpl. auto. }
    repeat constructor; apply D. }
  split; [exact H|].
  apply (scanner_fed_store_holds_qr_records rescanRun H).
Defined.

(** ** The list of records *)

Lemma nonEmpty_false (s : string) :
  HistoryList.nonEmpty s = false <-> s = "".
Proof.
  unfold HistoryList.nonEmpty.
  destruct s; simpl; split; intro H; (reflexivity || discriminate H).
Qed.

Lemma nonEmpty_true (s : string) :
  s <> "" -> HistoryList.nonEmpty s = true.
Proof.
  unfold HistoryList.nonEmpty. destruct s; simpl; [congruence | reflexivity].
Qed.

(** X23. The badges under a record: none is rendered exactly when the four
    metadata fields of the record are empty; otherwise there are at most
    three, and the school and the inputter each have their badge exactly
    when they are not empty. *)
Theorem badges_shown_iff_metadata_present :
  forall item : ScannedItem.t,
    (HistoryList.metadataBadges item = [] <->
     ScannedItem.schoolName item = "" /\ ScannedItem.grade item = "" /\
     ScannedItem.className item = "" /\ ScannedItem.inputterName item = "") /\
    (List.length (HistoryList.metadataBadges item) <= 3)%nat /\
    (ScannedItem.schoolName item <> "" ->
     In (ScannedItem.schoolName item) (HistoryList.metadataBadges item)) /\
    (ScannedItem.inputterName item <> "" ->
     In (ScannedItem.inputterName item) (HistoryList.metadataBadges item)).
Proof.
  intro item. split; [split|split; [|split]].
  - unfold HistoryList.metadataBadges.
    destruct (HistoryList.nonEmpty (ScannedItem.schoolName item)) eqn:E1;
      destruct (HistoryList.nonEmpty (ScannedItem.grade item)) eqn:E2;
      destruct (HistoryList.nonEmpty (ScannedItem.className item)) eqn:E3;
      destruct (HistoryList.nonEmpty (ScannedItem.inputterName item)) eqn:E4;
      cbn [orb app]; try discriminate.
    intros _. rewrite nonEmpty_false in E1, E2, E3, E4. auto.
  - intros (H1 & H2 & H3 & H4). unfold HistoryList.metadataBadges.
    rewrite H1, H2, H3, H4. reflexivity.
  - unfold HistoryList.metadataBadges.
    destruct (HistoryList.nonEmpty (ScannedItem.schoolName item));
      destruct (HistoryList.nonEmpty (ScannedItem.grade item));
      destruct (HistoryList.nonEmpty (ScannedItem.className item));
      destruct (HistoryList.nonEmpty (ScannedItem.inputterName item));
      simpl; lia.
  - intro H. apply nonEmpty_true in H. unfold HistoryList.metadataBadges.
    rewrite H. cbn [orb app]. left. reflexivity.
  - intro H. apply nonEmpty_true in H. unfold HistoryList.metadataBadges.
    rewrite H, !orb_true_r. apply in_or_app. right. apply in_or_app. right.
    left. reflexivity.
Qed.
